(** * galmag: free-decay modes of the halo field and the Galerkin dynamo solver

    A shallow embedding of
      - [core/halo_free_decay_modes.py]  (the eight free-decay modes), and
      - [gmf_tool/B_generators/B_generator_halo.py]
        (perturbation operator, Galerkin coefficients, [get_B_field]).

    Numbers are real numbers: a Python float is read as the real it
    denotes, so the statements below are about the formulas of the code in
    exact arithmetic.  The functions of numpy and scipy keep their names. *)

From Stdlib Require Import String Reals Lra Lia Bool Arith List.
Import ListNotations.
Local Open Scope R_scope.

(* ================================================================== *)
(** * numpy operands: scalars and arrays, with broadcasting *)
(* ================================================================== *)

Module Numpy.

(** An operand of an arithmetic expression is a Python float or an array.
    Arrays are kept flat, in the order of their elements; the mode library
    only works elementwise, so the shape plays no part in it. *)
Inductive nd : Type :=
| Sc (x : R)
| Ar (xs : list R).

Fixpoint zip_with {A B C : Type} (f : A -> B -> C)
         (xs : list A) (ys : list B) : list C :=
  match xs, ys with
  | x :: xs', y :: ys' => f x y :: zip_with f xs' ys'
  | _, _ => []
  end.

(** A unary ufunc. *)
Definition lift1 (f : R -> R) (a : nd) : nd :=
  match a with
  | Sc x => Sc (f x)
  | Ar xs => Ar (map f xs)
  end.

(** A binary ufunc: a scalar is broadcast over an array, two arrays of the
    same shape are combined elementwise. *)
Definition lift2 (f : R -> R -> R) (a b : nd) : nd :=
  match a, b with
  | Sc x, Sc y => Sc (f x y)
  | Sc x, Ar ys => Ar (map (f x) ys)
  | Ar xs, Sc y => Ar (map (fun x => f x y) xs)
  | Ar xs, Ar ys => Ar (zip_with f xs ys)
  end.

(** [N.zeros_like(r)]. *)
Definition zeros_like (r : list R) : nd := Ar (map (fun _ => 0) r).

(** [N.empty_like(r)]: an array of the shape of [r] whose contents are
    whatever the memory held, given here by [garbage]. *)
Definition empty_like (garbage : nat -> R) (r : list R) : nd :=
  Ar (map garbage (seq 0 (length r))).

(** The comparisons [r <= c] and [r > c] of an array with a float. *)
Definition le_mask (r : list R) (c : R) : list bool :=
  map (fun x => if Rle_dec x c then true else false) r.

Definition gt_mask (r : list R) (c : R) : list bool :=
  map (fun x => if Rgt_dec x c then true else false) r.

(** Boolean indexing [r[mask]]: the selected elements, in order. *)
Fixpoint select (r : list R) (mask : list bool) : list R :=
  match r, mask with
  | x :: r', true :: m' => x :: select r' m'
  | _ :: r', false :: m' => select r' m'
  | _, _ => []
  end.

Fixpoint scatter (xs : list R) (mask : list bool) (vs : list R) : list R :=
  match xs, mask with
  | x :: xs', true :: m' =>
      match vs with
      | v :: vs' => v :: scatter xs' m' vs'
      | [] => x :: scatter xs' m' []
      end
  | x :: xs', false :: m' => x :: scatter xs' m' vs
  | _, _ => xs
  end.

Fixpoint fill (xs : list R) (mask : list bool) (v : R) : list R :=
  match xs, mask with
  | x :: xs', b :: m' => (if b then v else x) :: fill xs' m' v
  | _, _ => xs
  end.

(** Masked assignment [X[mask] = v]. *)
Definition put (X : nd) (mask : list bool) (v : nd) : nd :=
  match X, v with
  | Ar xs, Ar vs => Ar (scatter xs mask vs)
  | Ar xs, Sc c => Ar (fill xs mask c)
  | Sc x, _ => Sc x
  end.

(** [x ** e] with a float exponent, for a positive base. *)
Definition power (x e : R) : R := Rpower x e.

Definition sin (a : nd) : nd := lift1 Rtrigo_def.sin a.
Definition cos (a : nd) : nd := lift1 Rtrigo_def.cos a.
Definition sqrt (a : nd) : nd := lift1 R_sqrt.sqrt a.

(** The array holds [0] at every one of its [n] entries. *)
Definition identically_zero (n : nat) (a : nd) : Prop :=
  exists xs, a = Ar xs /\ length xs = n /\ Forall (fun x => x = 0) xs.

End Numpy.

Declare Scope nd_scope.
Delimit Scope nd_scope with nd.
Bind Scope nd_scope with Numpy.nd.
Coercion Numpy.Sc : R >-> Numpy.nd.

Notation "a + b" := (Numpy.lift2 Rplus a b) : nd_scope.
Notation "a - b" := (Numpy.lift2 Rminus a b) : nd_scope.
Notation "a * b" := (Numpy.lift2 Rmult a b) : nd_scope.
Notation "a / b" := (Numpy.lift2 Rdiv a b) : nd_scope.
Notation "- a" := (Numpy.lift1 Ropp a) : nd_scope.
Notation "a ** e" := (Numpy.lift2 Numpy.power a e)
  (at level 30, right associativity) : nd_scope.
Notation "a ^ n" := (Numpy.lift1 (fun x => pow x n) a) : nd_scope.

(* ================================================================== *)
(** * core/halo_free_decay_modes.py *)
(* ================================================================== *)

Module halo_free_decay_modes.

(** Lines 6-9: [pi=N.pi], [cos = N.cos], [sin = N.sin], [sqrt = N.sqrt]. *)
Definition pi : R := PI.
Definition cos := Numpy.cos.
Definition sin := Numpy.sin.
Definition sqrt := Numpy.sqrt.

(** A keyword argument with a default value. *)
Definition kw (default : R) (given : option R) : R :=
  match given with
  | Some v => v
  | None => default
  end.

Section Modes.

(** [scipy.special.jv]: [J v x] is the Bessel function of the first
    kind of real order [v] at [x]. *)
Variable J : R -> R -> R.

(** What [N.empty_like] finds in memory. *)
Variable garbage : nat -> R.

Definition jv (v : R) (x : Numpy.nd) : Numpy.nd := Numpy.lift1 (J v) x.

(** The pattern of every radial profile:
<<
    Q = N.empty_like(r)        (or N.zeros_like(r))
    Q[r<=1.] = f_int(r[r<=1.])
    Q[r>1.]  = f_ext(r[r>1.])
>>
    with the interior formula [f_int] and the exterior formula [f_ext]
    evaluated on the selected radii only. *)
Definition piecewise (Q0 : Numpy.nd) (r : list R)
           (f_int f_ext : Numpy.nd -> Numpy.nd) : Numpy.nd :=
  let Q1 := Numpy.put Q0 (Numpy.le_mask r 1)
              (f_int (Numpy.Ar (Numpy.select r (Numpy.le_mask r 1)))) in
  Numpy.put Q1 (Numpy.gt_mask r 1)
            (f_ext (Numpy.Ar (Numpy.select r (Numpy.gt_mask r 1)))).

(** ** get_B_a_1 (lines 11-41) *)

Definition a_1_Q_int (k : R) (rr : Numpy.nd) : Numpy.nd :=
  (rr ** (-0.5) * jv (3.0/2.0) (k * rr))%nd.

Definition a_1_Q_ext (k : R) (rr : Numpy.nd) : Numpy.nd :=
  (rr ** (-2.0) * jv (3.0/2.0) k)%nd.

Definition a_1_X_int (k : R) (rr : Numpy.nd) : Numpy.nd :=
  let y := (k * rr)%nd in
  (sqrt (2.0 / pi) * (y ^ 2 * sin y - sin y + y * cos y)
   / (k ** (-0.5) * y ^ 2))%nd.

Definition a_1_X_ext (k : R) (rr : Numpy.nd) : Numpy.nd :=
  ((-1) * rr ** (-2.0) * jv (3.0/2.0) k)%nd.

Definition a_1_Br (C : R) (r theta : list R) (Q : Numpy.nd) : Numpy.nd :=
  (C * (2.0 / Numpy.Ar r) * Q * cos (Numpy.Ar theta))%nd.

Definition a_1_Btheta (C : R) (r theta : list R) (X : Numpy.nd)
  : Numpy.nd :=
  (C * (- sin (Numpy.Ar theta) / Numpy.Ar r) * X)%nd.

Definition get_B_a_1 (r theta phi : list R) (C k : option R)
  : Numpy.nd * Numpy.nd * Numpy.nd :=
  let C := kw 0.346 C in
  let k := kw pi k in
  (* Computes radial component *)
  let Q := piecewise (Numpy.empty_like garbage r) r
                     (a_1_Q_int k) (a_1_Q_ext k) in
  let Br := a_1_Br C r theta Q in
  (* Computes polar component *)
  let X := piecewise (Numpy.empty_like garbage r) r
                     (a_1_X_int k) (a_1_X_ext k) in
  let Btheta := a_1_Btheta C r theta X in
  (* Sets azimuthal component *)
  let Bphi := Numpy.zeros_like r in
  (Br, Btheta, Bphi).

(** ** get_B_a_2 (lines 43-85) *)

Definition a_2_Q_int (k : R) (rr : Numpy.nd) : Numpy.nd :=
  (rr ** (-0.5) * jv (7.0/2.0) (k * rr))%nd.

Definition a_2_Q_ext (k : R) (rr : Numpy.nd) : Numpy.nd :=
  (rr ** (-4.0) * jv (7.0/2.0) k)%nd.

Definition a_2_X_int (k : R) (rr : Numpy.nd) : Numpy.nd :=
  let y := (k * rr)%nd in
  let siny := sin y in
  let cosy := cos y in
  let A := (15 * siny / y ^ 3 - 15 * cosy / y ^ 2 - 6 * siny / y
            + cosy)%nd in
  let B := (-45 * siny / y ^ 3 / rr + 45 * cosy / y ^ 2 / rr
            + 21 * siny / y / rr - k * siny - 6 * siny / rr)%nd in
  (A / sqrt (2 * pi * rr * y)
   - k * sqrt rr * A / sqrt (2 * pi) / y ** (3/2)
   + sqrt (2 / pi) * B / sqrt k)%nd.

Definition a_2_X_ext (k : R) (rr : Numpy.nd) : Numpy.nd :=
  (-3 * jv (7.0/2.0) k * rr ** (-4))%nd.

Definition a_2_Br (C : R) (r theta : list R) (Q : Numpy.nd) : Numpy.nd :=
  (C * (2.0 / Numpy.Ar r) * Q * cos (Numpy.Ar theta)
   * (5.0 * cos (2 * Numpy.Ar theta) - 1))%nd.

Definition a_2_Btheta (C : R) (r theta : list R) (X : Numpy.nd)
  : Numpy.nd :=
  (C * (- sin (Numpy.Ar theta) / Numpy.Ar r) * X
   * (5 * cos (Numpy.Ar theta) ^ 2 - 1))%nd.

Definition get_B_a_2 (r theta phi : list R) (C k : option R)
  : Numpy.nd * Numpy.nd * Numpy.nd :=
  let C := kw 0.250 C in
  let k := kw 5.763 k in
  let Q := piecewise (Numpy.empty_like garbage r) r
                     (a_2_Q_int k) (a_2_Q_ext k) in
  let Br := a_2_Br C r theta Q in
  let X := piecewise (Numpy.empty_like garbage r) r
                     (a_2_X_int k) (a_2_X_ext k) in
  let Btheta := a_2_Btheta C r theta X in
  let Bphi := Numpy.zeros_like r in
  (Br, Btheta, Bphi).

(** ** get_B_a_3 (lines 88-111) *)

Definition a_3_Q_int (k : R) (rr : Numpy.nd) : Numpy.nd :=
  (rr ** (-0.5) * jv (5.0/2.0) (k * rr))%nd.

Definition a_3_Q_ext (k : R) (rr : Numpy.nd) : Numpy.nd :=
  (rr ** (-3.0) * jv (5.0/2.0) k)%nd.

Definition a_3_Bphi (C : R) (theta : list R) (Q : Numpy.nd) : Numpy.nd :=
  (C * Q * sin (Numpy.Ar theta) * cos (Numpy.Ar theta))%nd.

Definition get_B_a_3 (r theta phi : list R) (C k : option R)
  : Numpy.nd * Numpy.nd * Numpy.nd :=
  let C := kw 3.445 C in
  let k := kw 5.763 k in
  (* Sets radial component *)
  let Br := Numpy.zeros_like r in
  (* Sets polar component *)
  let Btheta := Numpy.zeros_like r in
  (* Computes azimuthal component *)
  let Q := piecewise (Numpy.empty_like garbage r) r
                     (a_3_Q_int k) (a_3_Q_ext k) in
  let Bphi := a_3_Bphi C theta Q in
  (Br, Btheta, Bphi).

(** ** get_B_a_4 (lines 114-125) *)

Definition get_B_a_4 (r theta phi : list R) (C k : option R)
  : Numpy.nd * Numpy.nd * Numpy.nd :=
  let C := kw 0.244 C in
  let k := kw (2 * pi) k in
  (* This happens to have the same form as the 1st antisymmetric mode *)
  get_B_a_1 r theta phi (Some C) (Some k).

(** ** get_B_s_1 (lines 128-163) *)

Definition s_1_Q_int (k : R) (rr : Numpy.nd) : Numpy.nd :=
  (rr ** (-0.5) * jv (5.0/2.0) (k * rr))%nd.

Definition s_1_Q_ext (k : R) (rr : Numpy.nd) : Numpy.nd :=
  (rr ** (-3.0) * jv (5.0/2.0) k)%nd.

Definition s_1_X_int (k : R) (rr : Numpy.nd) : Numpy.nd :=
  let y := (k * rr)%nd in
  let siny := sin y in
  let cosy := cos y in
  ((3 * siny / y ^ 2 - siny - 3 * cosy / y) / sqrt (2 * pi * y * rr)
   - k * sqrt rr * (3 * siny / y ^ 2 - siny - 3 * cosy / y)
     / sqrt (2 * pi) * y ** (-3/2)
   + sqrt (2 / pi * rr)
     * (-6 * siny * k / y ^ 3 + 6 * cosy * k / y ^ 2
        + 3 * siny * k / y - k * cosy)
     / sqrt y)%nd.

Definition s_1_X_ext (k : R) (rr : Numpy.nd) : Numpy.nd :=
  (-2.0 * rr ** (-3.0) * jv (5.0/2.0) k)%nd.

Definition s_1_Br (C : R) (r theta : list R) (Q : Numpy.nd) : Numpy.nd :=
  (C * Q * (3.0 * cos (Numpy.Ar theta) ^ 2 - 1) / Numpy.Ar r)%nd.

Definition s_1_Btheta (C : R) (r theta : list R) (X : Numpy.nd)
  : Numpy.nd :=
  (C * (- sin (Numpy.Ar theta) * cos (Numpy.Ar theta) / Numpy.Ar r)
   * X)%nd.

Definition get_B_s_1 (r theta phi : list R) (C k : option R)
  : Numpy.nd * Numpy.nd * Numpy.nd :=
  let C := kw 0.662 C in
  let k := kw 4.493 k in
  let Q := piecewise (Numpy.empty_like garbage r) r
                     (s_1_Q_int k) (s_1_Q_ext k) in
  let Br := s_1_Br C r theta Q in
  let X := piecewise (Numpy.zeros_like r) r
                     (s_1_X_int k) (s_1_X_ext k) in
  let Btheta := s_1_Btheta C r theta X in
  let Bphi := Numpy.zeros_like r in
  (Br, Btheta, Bphi).

(** ** get_B_s_2 (lines 166-189) *)

Definition s_2_Q_int (k : R) (rr : Numpy.nd) : Numpy.nd :=
  (rr ** (-0.5) * jv (3.0/2.0) (k * rr))%nd.

Definition s_2_Q_ext (k : R) (rr : Numpy.nd) : Numpy.nd :=
  (rr ** (-2.0) * jv (3.0/2.0) k)%nd.

Definition s_2_Bphi (C : R) (theta : list R) (Q : Numpy.nd) : Numpy.nd :=
  (C * Q * sin (Numpy.Ar theta))%nd.

Definition get_B_s_2 (r theta phi : list R) (C k : option R)
  : Numpy.nd * Numpy.nd * Numpy.nd :=
  let C := kw 1.330 C in
  let k := kw 4.493 k in
  let Br := Numpy.zeros_like r in
  let Btheta := Numpy.zeros_like r in
  let Q := piecewise (Numpy.empty_like garbage r) r
                     (s_2_Q_int k) (s_2_Q_ext k) in
  let Bphi := s_2_Bphi C theta Q in
  (Br, Btheta, Bphi).

(** ** get_B_s_3 (lines 193-234) *)

Definition s_3_Q_int (k : R) (rr : Numpy.nd) : Numpy.nd :=
  (rr ** (-0.5) * jv (9.0/2.0) (k * rr))%nd.

Definition s_3_Q_ext (k : R) (rr : Numpy.nd) : Numpy.nd :=
  (rr ** (-5.0) * jv (9.0/2.0) k)%nd.

Definition s_3_X_int (k : R) (rr : Numpy.nd) : Numpy.nd :=
  let y := (k * rr)%nd in
  let siny := sin y in
  let cosy := cos y in
  let A := (105 * siny / y ^ 4 - 105 * cosy / y ^ 3 - 45 * siny / y ^ 2
            + siny + 10 * cosy / y)%nd in
  (A / sqrt (2 * pi * y * rr)
   - k * sqrt rr * A / sqrt (2 * pi * y ** 1.5)
   + sqrt (2 / pi * rr)
     * (-420 * siny * k / y ^ 5 + 420 * cosy * k / y ^ 4
        + 195 * siny * k / y ^ 3 - 55 * cosy * k / y ^ 2
        - 10 * siny * k / y + k * cosy)
     / sqrt y)%nd.

Definition s_3_X_ext (k : R) (rr : Numpy.nd) : Numpy.nd :=
  (-4 * rr ** (-5.0) * jv (9.0/2.0) k)%nd.

Definition s_3_S (theta : list R) : Numpy.nd :=
  (35 * cos (Numpy.Ar theta) ^ 4 - 30 * cos (Numpy.Ar theta) ^ 2
   + 3.0)%nd.

Definition s_3_Br (C : R) (r theta : list R) (Q : Numpy.nd) : Numpy.nd :=
  (C * Q * s_3_S theta / Numpy.Ar r)%nd.

Definition s_3_Btheta (C : R) (r theta : list R) (X : Numpy.nd)
  : Numpy.nd :=
  let dSdth := (sin (Numpy.Ar theta) * cos (Numpy.Ar theta)
                * (60 - 140 * cos (Numpy.Ar theta) ^ 2))%nd in
  (C * X * dSdth / Numpy.Ar r)%nd.

Definition get_B_s_3 (r theta phi : list R) (C k : option R)
  : Numpy.nd * Numpy.nd * Numpy.nd :=
  let C := kw 0.339 C in
  let k := kw 6.988 k in
  let Q := piecewise (Numpy.empty_like garbage r) r
                     (s_3_Q_int k) (s_3_Q_ext k) in
  let Br := s_3_Br C r theta Q in
  let X := piecewise (Numpy.zeros_like r) r
                     (s_3_X_int k) (s_3_X_ext k) in
  let Btheta := s_3_Btheta C r theta X in
  let Bphi := Numpy.zeros_like r in
  (Br, Btheta, Bphi).

(** ** get_B_s_4 (lines 237-262) *)

Definition s_4_Q_int (k : R) (rr : Numpy.nd) : Numpy.nd :=
  (rr ** (-0.5) * jv (7.0/2.0) (k * rr))%nd.

Definition s_4_Q_ext (k : R) (rr : Numpy.nd) : Numpy.nd :=
  (rr ** (-4.0) * jv (7.0/2.0) k)%nd.

Definition s_4_Bphi (C : R) (theta : list R) (Q : Numpy.nd) : Numpy.nd :=
  (- C * Q * sin (Numpy.Ar theta))%nd.

Definition get_B_s_4 (r theta phi : list R) (C k : option R)
  : Numpy.nd * Numpy.nd * Numpy.nd :=
  let C := kw 0.540 C in
  let k := kw 6.988 k in
  let Br := Numpy.zeros_like r in
  let Btheta := Numpy.zeros_like r in
  let Q := piecewise (Numpy.empty_like garbage r) r
                     (s_4_Q_int k) (s_4_Q_ext k) in
  (* the local S of line 258 is computed and not used *)
  let Bphi := s_4_Bphi C theta Q in
  (Br, Btheta, Bphi).


End Modes.

End halo_free_decay_modes.

(* ================================================================== *)
(** * Exceptions, and the calls a computation has made *)
(* ================================================================== *)

Module Py.

Inductive exception : Type :=
| AssertionError (msg : string)
| NotImplementedError
| IndexError
| KeyError (key : string)
| AttributeError (name : string)
| UnboundLocalError (name : string)
| TypeError
| NameError (name : string)
| SyntaxError (msg : string).

Inductive outcome (A : Type) : Type :=
| Returns (v : A)
| Raises (e : exception).
Arguments Returns {A} v.
Arguments Raises {A} e.

(** A computation extends the list of the helper calls made so far (the
    oldest first) and either returns or raises; the list is kept when it
    raises, so that one can tell what ran before the exception. *)
Definition calls := list string.
Definition M (A : Type) : Type := calls -> outcome A * calls.

Definition ret {A} (v : A) : M A := fun t => (Returns v, t).
Definition raise {A} (e : exception) : M A := fun t => (Raises e, t).
Definition bind {A B} (c : M A) (k : A -> M B) : M B :=
  fun t => match c t with
           | (Returns v, t') => k v t'
           | (Raises e, t') => (Raises e, t')
           end.

(** The call of the helper [name], whose result is [v]. *)
Definition call {A} (name : string) (v : A) : M A :=
  fun t => (Returns v, t ++ [name]).

(** [for x in xs: s = body(x, s)]. *)
Fixpoint for_each {A S} (xs : list A) (body : A -> S -> M S) (s : S)
  : M S :=
  match xs with
  | [] => ret s
  | x :: xs' => bind (body x s) (for_each xs' body)
  end.

(** [range(n)] and [range(lo, hi)]. *)
Definition range (n : nat) : list nat := seq 0 n.
Definition range2 (lo hi : nat) : list nat := seq lo (hi - lo).

(** [xs[i]] on a sequence. *)
Definition getitem {A} (xs : list A) (i : nat) : M A :=
  match nth_error xs i with
  | Some x => ret x
  | None => raise IndexError
  end.

(** A dict with string keys, as the list of its items; the first item
    with the key is the one in force. *)
Definition dict (V : Type) := list (string * V).

Fixpoint lookup {V} (d : dict V) (key : string) : option V :=
  match d with
  | [] => None
  | (k, v) :: d' => if String.eqb k key then Some v else lookup d' key
  end.

(** [d[key] = v]: the binding of [key] is replaced, or a new one added. *)
Fixpoint setitem {V} (d : dict V) (key : string) (v : V) : dict V :=
  match d with
  | [] => [(key, v)]
  | (k, w) :: d' =>
      if String.eqb k key then (k, v) :: d' else (k, w) :: setitem d' key v
  end.

Definition subscript {V} (d : dict V) (key : string) : M V :=
  match lookup d key with
  | Some v => ret v
  | None => raise (KeyError key)
  end.

(** Two computations that make the same calls and end the same way: both
    return, or both raise the same exception. *)
Definition same_effect {A B} (c : M A) (c' : M B) : Prop :=
  forall t,
    snd (c t) = snd (c' t) /\
    match fst (c t), fst (c' t) with
    | Returns _, Returns _ => True
    | Raises e, Raises e' => e = e'
    | _, _ => False
    end.

(** A computation that raises before it has called any helper. *)
Definition raises_before_any_call {A} (c : M A) : Prop :=
  forall t, exists e, c t = (Raises e, t).

(** A computation that makes no helper call: it leaves the list of calls
    alone, and its outcome does not depend on that list. *)
Definition quiet {A} (c : M A) : Prop :=
  forall t, c t = (fst (c []), t).

End Py.

Declare Scope py_scope.
Delimit Scope py_scope with py.
Notation "x <- c ;; k" := (Py.bind c (fun x => k))
  (at level 61, c at next level, right associativity) : py_scope.
Notation "' p <- c ;; k" := (Py.bind c (fun x => let 'p := x in k))
  (at level 61, p pattern, c at next level, right associativity) : py_scope.

(* ================================================================== *)
(** * Arrays on the spherical grid *)
(* ================================================================== *)

Module Field.

(** A field on the grid is indexed [[ir][itheta][iphi]]. *)
Definition arr1 := list R.
Definition arr2 := list arr1.
Definition arr3 := list arr2.

Definition map3 (f : R -> R) (x : arr3) : arr3 := map (map (map f)) x.

Definition zip2 (f : R -> R -> R) (x y : arr2) : arr2 :=
  Numpy.zip_with (Numpy.zip_with f) x y.

Definition zip3 (f : R -> R -> R) (x y : arr3) : arr3 :=
  Numpy.zip_with (zip2 f) x y.

(** The product of a [(ntheta, nphi)] array with a [(nr, ntheta, nphi)]
    array: the first is broadcast along the leading axis. *)
Definition broadcast_mul (x : arr2) (y : arr3) : arr3 :=
  map (zip2 Rmult x) y.

(** [x[..., 0]]: the first sample along the last axis. *)
Fixpoint first_of_rows (x : arr2) : option arr1 :=
  match x with
  | [] => Some []
  | row :: x' =>
      match row, first_of_rows x' with
      | v :: _, Some vs => Some (v :: vs)
      | _, _ => None
      end
  end.

Fixpoint first_along_last_axis (x : arr3) : option arr2 :=
  match x with
  | [] => Some []
  | s :: x' =>
      match first_of_rows s, first_along_last_axis x' with
      | Some p, Some ps => Some (p :: ps)
      | _, _ => None
      end
  end.

(** The shape of a field, as the lengths of its rows. *)
Definition shape (x : arr3) : list (list nat) := map (map (@length R)) x.

(** [N.zeros((n, m))]. *)
Definition zeros (n m : nat) : list (list R) := repeat (repeat 0 m) n.

(** [W[i, j]] and [W[i, j] = v] on a matrix. *)
Definition mget (W : list (list R)) (i j : nat) : option R :=
  match nth_error W i with
  | Some row => nth_error row j
  | None => None
  end.

Fixpoint set_nth {A} (xs : list A) (i : nat) (v : A) : option (list A) :=
  match xs, i with
  | [], _ => None
  | _ :: xs', O => Some (v :: xs')
  | x :: xs', S i' =>
      match set_nth xs' i' v with
      | Some ys => Some (x :: ys)
      | None => None
      end
  end.

Definition mset (W : list (list R)) (i j : nat) (v : R)
  : option (list (list R)) :=
  match nth_error W i with
  | Some row =>
      match set_nth row j v with
      | Some row' => set_nth W i row'
      | None => None
      end
  | None => None
  end.

End Field.

Declare Scope field_scope.
Delimit Scope field_scope with field.
Notation "x + y" := (Field.zip3 Rplus x y) : field_scope.
Notation "x - y" := (Field.zip3 Rminus x y) : field_scope.
Notation "x * y" := (Field.zip3 Rmult x y) : field_scope.
Notation "c *: x" := (Field.map3 (Rmult c) x)
  (at level 40, left associativity) : field_scope.
Notation "x :* c" := (Field.map3 (fun v => v * c) x)
  (at level 40, left associativity) : field_scope.
Notation "x ^ n" := (Field.map3 (fun v => pow v n) x) : field_scope.

(* ================================================================== *)
(** * gmf_tool/B_generators/B_generator_halo.py *)
(* ================================================================== *)

Module B_generator_halo.

Import Field.
Local Open Scope py_scope.

(** A vector field sample: its r, theta and phi components. *)
Definition vec3 : Type := arr3 * arr3 * arr3.

(** [v[i]] on a sample. *)
Definition component (v : vec3) (i : nat) : Py.M arr3 :=
  match i with
  | 0%nat => Py.ret (fst (fst v))
  | 1%nat => Py.ret (snd (fst v))
  | 2%nat => Py.ret (snd v)
  | _ => Py.raise Py.IndexError
  end.

(** The values a parameter dictionary holds. *)
Inductive pyvalue : Type :=
| PBool (b : bool)
| PInt (n : Z)
| PStr (s : string)
| PFloats (xs : list R)
| PFunc (name : string).

(** What the code uses of a [Grid]: the coordinate arrays and the data of
    a fresh prototype (its contents are not specified). *)
Record Grid : Type := {
  r_spherical : arr3;
  theta : arr3;
  phi : arr3;
  r_cylindrical : arr3;
  z : arr3;
  get_prototype : arr3
}.

(** A distributed array is read and written whole. *)
Definition get_local_data (x : arr3) : arr3 := x.
Definition set_local_data (g l : arr3) : arr3 := l.

(** [for (g, l) in zip(gs, ls): g.set_local_data(l, copy=False)]. *)
Fixpoint set_each (gs ls : list arr3) : list arr3 :=
  match gs, ls with
  | g :: gs', l :: ls' => set_local_data g l :: set_each gs' ls'
  | _, _ => gs
  end.

Definition sequence_of (v : vec3) : list arr3 :=
  [fst (fst v); snd (fst v); snd v].

(** Lines 27-38. *)
Definition _builtin_parameter_defaults : Py.dict pyvalue :=
  [ ("halo_symmetric_field", PBool true);
    ("halo_n_free_decay_modes", PInt 4);
    ("halo_dynamo_type", PStr "alpha-omega");
    ("halo_rotation_function", PFunc "simple_V");
    ("halo_alpha_function", PFunc "simple_alpha");
    ("halo_Galerkin_ngrid", PInt 250);
    ("halo_growing_mode_only", PBool false);
    ("halo_compute_only_one_quadrant", PBool true) ]%string.

Section Generator.

(** ** Code of the repository that is not in the source tree *)

(** [curl_spherical(r, theta, phi, Fr, Ft, Fp)] and
    [cross(Ar, At, Ap, Br, Bt, Bp)]. *)
Variable curl_spherical :
  arr3 -> arr3 -> arr3 -> arr3 -> arr3 -> arr3 -> vec3.
Variable cross : arr3 -> arr3 -> arr3 -> arr3 -> arr3 -> arr3 -> vec3.

(** [halo_free_decay_modes.get_mode(r, theta, phi, imode, symmetry)]. *)
Variable symmetry_t : Type.
Variable get_mode : arr3 -> arr3 -> arr3 -> nat -> symmetry_t -> vec3.

(** ** numpy and scipy *)

(** [scipy.integrate.simps(y, dx=dx)] on a one-dimensional array. *)
Variable simps : arr1 -> R -> R.

(** [numpy.linalg.eig]. *)
Variable eigenvalues eigenvectors : Type.
Variable eig : list (list R) -> eigenvalues * eigenvectors.

(** [simps] integrates along the last axis. *)
Definition simps3 (y : arr3) (dx : R) : arr2 :=
  map (map (fun row => simps row dx)) y.
Definition simps2 (y : arr2) (dx : R) : arr1 :=
  map (fun row => simps row dx) y.

(** ** Names the bodies read and do not bind

    [perturbation_operator] reads [a]; and
    [Galerkin_expansion_coefficients] reads [nmodes], [symmetry], [Ra],
    [Ro], [dphi], [dtheta], [dr], [gamma] and [WBmode].  No statement of
    the file binds them, so they are whatever the enclosing scope
    holds.  The bodies that follow are the bodies under a scope that
    binds them; the reads of the names, and the scope of the file itself,
    come at the end of the section. *)
Variable a : arr3.
Variable nmodes : nat.
Variable symmetry : symmetry_t.
Variables Ra Ro : R.
Variables dphi dtheta dr : R.
Variable gamma : list R.
Variable WBmode : list (list arr3).

(** ** perturbation_operator (lines 71-115) *)

Definition perturbation_operator
           (r theta phi Br Bt Bp Vr Vt Vp alpha : arr3) (Ra Ro : R)
           (dynamo_type : string) : Py.M (list arr3) :=
  (* Computes \nabla \times (\alpha B) *)
  curl_aB <- Py.call "curl_spherical"
               (curl_spherical r theta phi (Br * a)%field (Bt * a)%field
                               (Bp * a)%field) ;;
  (* Computes \nabla \times (V \times B) *)
  ' (VcrossBr, VcrossBt, VcrossBp) <-
      Py.call "cross" (cross Vr Vt Vp Br Bt Bp) ;;
  curl_VcrossB <- Py.call "curl_spherical"
                    (curl_spherical r theta phi
                                    VcrossBr VcrossBt VcrossBp) ;;
  Py.for_each (Py.range 3)
    (fun i WBs =>
       if String.eqb dynamo_type "alpha-omega" then
         ci <- component curl_aB i ;;
         c2 <- component curl_aB 2 ;;
         vi <- component curl_VcrossB i ;;
         Py.ret (WBs ++ [(Ra *: (ci - c2) + Ro *: vi)%field])
       else if String.eqb dynamo_type "alpha2-omega" then
         ci <- component curl_aB i ;;
         vi <- component curl_VcrossB i ;;
         Py.ret (WBs ++ [(Ra *: ci + Ro *: vi)%field])
       else
         Py.raise (Py.AssertionError
                     ("Invalid option: dynamo_type=" ++ dynamo_type)))
    [].

(** The values of the locals [curl_aB] and [curl_VcrossB] of the body. *)
Definition curl_aB (r theta phi Br Bt Bp : arr3) : vec3 :=
  curl_spherical r theta phi (Br * a)%field (Bt * a)%field
                 (Bp * a)%field.

Definition curl_VcrossB (r theta phi Br Bt Bp Vr Vt Vp : arr3) : vec3 :=
  let '(VcrossBr, VcrossBt, VcrossBp) := cross Vr Vt Vp Br Bt Bp in
  curl_spherical r theta phi VcrossBr VcrossBt VcrossBp.

(** ** Galerkin_expansion_coefficients (lines 117-234) *)

(** Lines 151-167: the modes on the grid. *)
Definition Bmodes_on (galerkin_grid : Grid) : list (list arr3) :=
  let local_r_sph_grid := get_local_data (r_spherical galerkin_grid) in
  let local_phi_grid := get_local_data (phi galerkin_grid) in
  let local_theta_grid := get_local_data (theta galerkin_grid) in
  let local_Bmodes :=
    map (fun imode =>
           sequence_of (get_mode local_r_sph_grid local_theta_grid
                                 local_phi_grid imode symmetry))
        (Py.range2 1 (nmodes + 1)) in
  let Bmodes :=
    map (fun _ => [get_prototype galerkin_grid;
                   get_prototype galerkin_grid;
                   get_prototype galerkin_grid])
        (Py.range2 1 (nmodes + 1)) in
  Numpy.zip_with set_each Bmodes local_Bmodes.

(** Lines 188-200: the perturbation operator applied to every mode. *)
Definition WBmodes_on (galerkin_grid : Grid) (dynamo_type : string)
           (Bmodes : list (list arr3)) (Vs : list arr3) (alpha : arr3)
  : Py.M (list (list arr3)) :=
  Py.for_each Bmodes
    (fun Bmode WBmodes =>
       B0 <- Py.getitem Bmode 0 ;;
       B1 <- Py.getitem Bmode 1 ;;
       B2 <- Py.getitem Bmode 2 ;;
       V0 <- Py.getitem Vs 0 ;;
       V1 <- Py.getitem Vs 1 ;;
       V2 <- Py.getitem Vs 2 ;;
       WB <- perturbation_operator (r_spherical galerkin_grid)
               (theta galerkin_grid) (phi galerkin_grid)
               B0 B1 B2 V0 V1 V2 alpha Ra Ro dynamo_type ;;
       Py.ret (WBmodes ++ [WB]))
    [].

(** After [for Bmode in Bmodes: ...] the name [Bmode] holds the last
    element of [Bmodes], and is unbound when [Bmodes] is empty. *)
Definition Bmode_after_loop (Bmodes : list (list arr3))
  : Py.M (list arr3) :=
  match Bmodes with
  | [] => Py.raise (Py.UnboundLocalError "Bmode")
  | _ => Py.ret (last Bmodes [])
  end.

(** Lines 207-212: the integrand of the pair [(i, j)].  [Bmode[i][k]] is
    the [k]-th radial slice of entry [i] of the mode left in [Bmode], and
    [WBmode[j][k]] is entry [k] of entry [j] of [WBmode]; their product
    broadcasts the slice along the radial axis. *)
Definition coupling_integrand (galerkin_grid : Grid)
           (Bmodes : list (list arr3)) (sintheta : arr3) (i j : nat)
  : Py.M arr3 :=
  let integrand := get_prototype galerkin_grid in
  let integrand := (integrand :* 0.0)%field in
  integrand <-
    Py.for_each (Py.range 3)
      (fun k integrand =>
         Bmode <- Bmode_after_loop Bmodes ;;
         Bmode_i <- Py.getitem Bmode i ;;
         Bmode_i_k <- Py.getitem Bmode_i k ;;
         WBmode_j <- Py.getitem WBmode j ;;
         WBmode_j_k <- Py.getitem WBmode_j k ;;
         Py.ret (integrand + broadcast_mul Bmode_i_k WBmode_j_k)%field)
      integrand ;;
  Py.ret (integrand * (r_spherical galerkin_grid ^ 2 * sintheta))%field.

(** Lines 214-219: the integration over phi. *)
Definition integrate_phi (integrand : arr3) : Py.M arr2 :=
  if Req_dec_T dphi 0 then
    (* Assuming axisymmetry *)
    match first_along_last_axis integrand with
    | Some slice => Py.ret (map (map (fun v => v * 2.0 * PI)) slice)
    | None => Py.raise Py.IndexError
    end
  else
    Py.ret (simps3 integrand dphi).

(** Lines 207-223: what is added to [Wij[i,j]]. *)
Definition coupling_integral (galerkin_grid : Grid)
           (Bmodes : list (list arr3)) (sintheta : arr3) (i j : nat)
  : Py.M R :=
  integrand <- coupling_integrand galerkin_grid Bmodes sintheta i j ;;
  (* Integrates over phi *)
  integrand <- integrate_phi integrand ;;
  (* Integrates over theta *)
  let integrand := simps2 integrand dtheta in
  (* Integrates over r *)
  Py.ret (simps integrand dr).

(** [Wij[i,j] += v] and [Wij[i,j] = v]. *)
Definition matrix_add (Wij : list (list R)) (i j : nat) (v : R)
  : Py.M (list (list R)) :=
  match mget Wij i j with
  | Some w =>
      match mset Wij i j (w + v) with
      | Some Wij' => Py.ret Wij'
      | None => Py.raise Py.IndexError
      end
  | None => Py.raise Py.IndexError
  end.

Definition matrix_set (Wij : list (list R)) (i j : nat) (v : R)
  : Py.M (list (list R)) :=
  match mset Wij i j v with
  | Some Wij' => Py.ret Wij'
  | None => Py.raise Py.IndexError
  end.

(** Lines 204-223 for one [i]: the loop over [j]. *)
Definition row_loop (galerkin_grid : Grid) (Bmodes : list (list arr3))
           (sintheta : arr3) (i : nat) (js : list nat)
           (Wij : list (list R)) : Py.M (list (list R)) :=
  Py.for_each js
    (fun j Wij =>
       if Nat.eqb i j then Py.ret Wij
       else
         v <- coupling_integral galerkin_grid Bmodes sintheta i j ;;
         matrix_add Wij i j v)
    Wij.

(** Lines 203-223: the loop over the pairs [(i, j)]. *)
Definition coupling_loop (galerkin_grid : Grid) (Bmodes : list (list arr3))
           (sintheta : arr3) (ns js : list nat) (Wij : list (list R))
  : Py.M (list (list R)) :=
  Py.for_each ns
    (fun i Wij => row_loop galerkin_grid Bmodes sintheta i js Wij) Wij.

(** Lines 225-227: overwrites the diagonal with its correct values. *)
Definition diagonal_loop (ns : list nat) (Wij : list (list R))
  : Py.M (list (list R)) :=
  Py.for_each ns
    (fun i Wij =>
       gamma_i <- Py.getitem gamma i ;;
       matrix_set Wij i i gamma_i)
    Wij.

Definition Galerkin_expansion_coefficients
           (galerkin_grid : Grid) (symmetric : bool)
           (dynamo_type : string) (n_free_decay_modes : nat)
           (return_matrix : bool)
           (function_V : arr3 -> arr3 -> arr3 -> vec3)
           (function_alpha : arr3 -> arr3 -> arr3 -> arr3)
  : Py.M (eigenvalues * eigenvectors * option (list (list R))) :=
  let local_r_sph_grid := get_local_data (r_spherical galerkin_grid) in
  let local_phi_grid := get_local_data (phi galerkin_grid) in
  let local_theta_grid := get_local_data (theta galerkin_grid) in
  let Bmodes := Bmodes_on galerkin_grid in
  (* Computes sintheta *)
  let local_sintheta := map3 Rtrigo_def.sin local_theta_grid in
  (* Computes alpha (locally) *)
  let local_alpha :=
    function_alpha local_r_sph_grid local_theta_grid local_phi_grid in
  (* Computes the various components of V (locally) *)
  let local_Vs :=
    sequence_of
      (function_V local_r_sph_grid local_theta_grid local_phi_grid) in
  (* Brings sintheta, rotation curve and alpha into the d2o's *)
  let sintheta :=
    set_local_data (get_prototype galerkin_grid) local_sintheta in
  let Vs :=
    set_each [get_prototype galerkin_grid; get_prototype galerkin_grid;
              get_prototype galerkin_grid] local_Vs in
  let alpha :=
    set_local_data (get_prototype galerkin_grid) local_alpha in
  (* Applies the perturbation operator *)
  WBmodes <- WBmodes_on galerkin_grid dynamo_type Bmodes Vs alpha ;;
  let Wij := zeros nmodes nmodes in
  Wij <- coupling_loop galerkin_grid Bmodes sintheta
           (Py.range n_free_decay_modes) (Py.range n_free_decay_modes)
           Wij ;;
  (* Overwrites the diagonal with its correct values *)
  Wij <- diagonal_loop (Py.range n_free_decay_modes) Wij ;;
  (* Solves the eigenvector problem and returns the result *)
  let '(val, vec) := eig Wij in
  if negb return_matrix then Py.ret (val, vec, None)
  else Py.ret (val, vec, Some Wij).

(** ** The two definitions of get_B_field *)

(** An instance of the generator: the attributes the bodies use. *)
Record instance : Type := {
  grid : Grid;
  component_count : nat;
  _bessel_jn_zeros : list R
}.

(** What [B_field(...)] is built from. *)
Record B_field : Type := {
  field_grid : Grid;
  field_r_cylindrical : arr3;
  field_phi : arr3;
  field_theta : arr3;
  field_generator : instance;
  field_parameters : Py.dict pyvalue
}.

(** [B_generator._parse_parameters], the constructor of [Grid],
    [scipy.special.jn_zeros], and the method
    [_convert_coordinates_to_B_values]. *)
Variable _parse_parameters :
  instance -> Py.dict pyvalue -> Py.dict pyvalue.
Variable Grid_new :
  list (R * R) -> list pyvalue -> string -> Grid.
Variable jn_zeros : nat -> nat -> list R.
Variable _convert_coordinates_to_B_values :
  instance -> arr3 -> arr3 -> arr3 -> Py.dict pyvalue -> list arr3.

(** Lines 41-69.  The arguments [B_sun], [reversals], [dr], [dz] and
    [number_of_components] are not read. *)
Definition get_B_field_halo (self : instance)
           (kwargs : Py.dict pyvalue)
  : Py.M (instance * option B_field) :=
  let parsed_parameters := _parse_parameters self kwargs in
  nGalerkin <- Py.subscript parsed_parameters "halo_Galerkin_ngrid" ;;
  (* Prepares a spherical grid for the Galerkin expansion *)
  Galerkin <- Py.call "Grid"
                (Grid_new [(0.0001, 2.0); (0.1, PI); (0.0, 0.0)]
                          [nGalerkin; nGalerkin; PInt 1]
                          "spherical") ;;
  Py.raise Py.NotImplementedError.

(** Lines 236-272. *)
Definition get_B_field_disk (self : instance)
           (kwargs : Py.dict pyvalue)
  : Py.M (instance * option B_field) :=
  let parsed_parameters := _parse_parameters self kwargs in
  normalization <-
    Py.subscript parsed_parameters "disk_component_normalization" ;;
  count <- match normalization with
           | PFloats xs => Py.ret (length xs)
           | PStr s => Py.ret (String.length s)
           | _ => Py.raise Py.TypeError
           end ;;
  let self := {| grid := grid self;
                 component_count := count;
                 _bessel_jn_zeros := _bessel_jn_zeros self |} in
  let self := {| grid := grid self;
                 component_count := component_count self;
                 _bessel_jn_zeros :=
                   jn_zeros 1 (component_count self) |} in
  let local_r_cylindrical_grid :=
    get_local_data (r_cylindrical (grid self)) in
  let local_phi_grid := get_local_data (phi (grid self)) in
  let local_z_grid := get_local_data (z (grid self)) in
  (* local_B_r_cylindrical, local_B_phi, local_B_z *)
  let local_arrays :=
    _convert_coordinates_to_B_values self local_r_cylindrical_grid
      local_phi_grid local_z_grid parsed_parameters in
  (* global_r_cylindrical, global_phi, global_z *)
  let global_arrays :=
    [get_prototype (grid self); get_prototype (grid self);
     get_prototype (grid self)] in
  (* bring the local array data into the d2o's *)
  let global_arrays := set_each global_arrays local_arrays in
  g0 <- Py.getitem global_arrays 0 ;;
  g1 <- Py.getitem global_arrays 1 ;;
  g2 <- Py.getitem global_arrays 2 ;;
  let result_field :=
    {| field_grid := grid self;
       field_r_cylindrical := g0;
       field_phi := g1;
       field_theta := g2;
       field_generator := self;
       field_parameters := parsed_parameters |} in
  Py.ret (self, Some result_field).

(** ** The class body

    The [def] statements of the class, in the order of the file; each
    binds its name in the namespace of the class, a later one replacing
    an earlier one of the same name. *)
Inductive definition : Type :=
| def___init__                           (* line 15 *)
| def__builtin_parameter_defaults        (* line 27 *)
| def_get_B_field_41                     (* line 41 *)
| def_perturbation_operator              (* line 71 *)
| def_Galerkin_expansion_coefficients    (* line 117 *)
| def_get_B_field_236.                   (* line 236 *)

Definition class_body : list (string * definition) :=
  [ ("__init__", def___init__);
    ("_builtin_parameter_defaults", def__builtin_parameter_defaults);
    ("get_B_field", def_get_B_field_41);
    ("perturbation_operator", def_perturbation_operator);
    ("Galerkin_expansion_coefficients",
     def_Galerkin_expansion_coefficients);
    ("get_B_field", def_get_B_field_236) ]%string.

Definition class_namespace : Py.dict definition :=
  fold_left (fun ns item => Py.setitem ns (fst item) (snd item))
            class_body [].

(** The call of [get_B_field] on an instance of the class. *)
Definition call_get_B_field (self : instance)
           (kwargs : Py.dict pyvalue)
  : Py.M (instance * option B_field) :=
  match Py.lookup class_namespace "get_B_field" with
  | Some def_get_B_field_41 => get_B_field_halo self kwargs
  | Some def_get_B_field_236 => get_B_field_disk self kwargs
  | _ => Py.raise (Py.AttributeError "get_B_field")
  end.

(** ** The file as it is written

    The parameter lists of the [def] statements of the class, in the order
    of the file.  [dtype=np.float] and the like are defaults; [**kwargs]
    may follow them. *)
Inductive parameter : Type :=
| Positional (name : string)
| Defaulted (name : string)
| VarKeyword (name : string).

Definition signature (d : definition) : list parameter :=
  match d with
  | def___init__ =>
      [ Positional "self"; Positional "box"; Positional "resolution";
        Defaulted "grid_type"; Defaulted "default_parameters";
        Defaulted "dtype" ]
  | def__builtin_parameter_defaults => [ Positional "self" ]
  | def_get_B_field_41 =>
      [ Positional "self"; Defaulted "B_sun"; Defaulted "reversals";
        Defaulted "dr"; Defaulted "dz"; Defaulted "number_of_components";
        VarKeyword "kwargs" ]
  | def_perturbation_operator =>
      [ Positional "r"; Positional "theta"; Positional "phi";
        Positional "Br"; Positional "Bt"; Positional "Bp";
        Positional "Vr"; Positional "Vt"; Positional "Vp";
        Positional "alpha"; Positional "Ra"; Positional "Ro";
        Defaulted "dynamo_type" ]
  | def_Galerkin_expansion_coefficients =>
      [ Positional "galerkin_grid"; Defaulted "symmetric";
        Defaulted "dynamo_type"; Defaulted "n_free_decay_modes";
        Defaulted "return_matrix"; Positional "function_V";
        Positional "function_alpha" ]
  | def_get_B_field_236 => [ Positional "self"; VarKeyword "kwargs" ]
  end%string.

(** The rule of the grammar: a parameter without a default may not follow
    one with a default. *)
Fixpoint valid_signature_from (seen_default : bool) (ps : list parameter)
  : bool :=
  match ps with
  | [] => true
  | Positional _ :: ps' =>
      if seen_default then false else valid_signature_from false ps'
  | Defaulted _ :: ps' => valid_signature_from true ps'
  | VarKeyword _ :: ps' => valid_signature_from seen_default ps'
  end.

Definition valid_signature (ps : list parameter) : bool :=
  valid_signature_from false ps.

(** Compiling the file: a [def] with an invalid parameter list is a
    SyntaxError, and then there is no class and none of its functions. *)
Definition compile_class : Py.outcome (Py.dict definition) :=
  if forallb (fun item => valid_signature (signature (snd item))) class_body
  then Py.Returns class_namespace
  else Py.Raises
         (Py.SyntaxError "non-default argument follows default argument").

(** A call into the file as it is written. *)
Definition as_written {A} (body : Py.M A) : Py.M A :=
  fun t => match compile_class with
           | Py.Returns _ => body t
           | Py.Raises e => (Py.Raises e, t)
           end.

(** The names that the file binds at its top level (the imports of lines
    3-11 and the class of line 14), and the builtins that the bodies
    read. *)
Definition module_names : list string :=
  [ "np"; "scipy"; "B_field"; "B_generator"; "Grid"; "simple_V";
    "simple_alpha"; "B_generator_halo" ]%string.

Definition builtin_names : list string :=
  [ "range"; "xrange"; "zip"; "len"; "super"; "AssertionError";
    "NotImplementedError" ]%string.

Definition module_binds (name : string) : bool :=
  existsb (String.eqb name) (module_names ++ builtin_names).

(** ** The bodies with their reads of free names

    [bound] tells which names the scopes around a body bind.  A free name
    is looked up when the statement that reads it runs: the lookup of a
    name that nothing binds raises NameError.  The value of a bound name
    is what the section gives it. *)
Variable bound : string -> bool.

Definition global (name : string) : Py.M unit :=
  if bound name then Py.ret tt else Py.raise (Py.NameError name).

Fixpoint globals (names : list string) : Py.M unit :=
  match names with
  | [] => Py.ret tt
  | name :: names' => u <- global name ;; globals names'
  end.

(** Lines 71-115. *)
Definition perturbation_operator_in
           (r theta phi Br Bt Bp Vr Vt Vp alpha : arr3) (Ra Ro : R)
           (dynamo_type : string) : Py.M (list arr3) :=
  (* line 96 *)
  u <- globals ["curl_spherical"; "a"]%string ;;
  curl_aB <- Py.call "curl_spherical"
               (curl_spherical r theta phi (Br * a)%field (Bt * a)%field
                               (Bp * a)%field) ;;
  (* line 99 *)
  u <- global "cross" ;;
  ' (VcrossBr, VcrossBt, VcrossBp) <-
      Py.call "cross" (cross Vr Vt Vp Br Bt Bp) ;;
  curl_VcrossB <- Py.call "curl_spherical"
                    (curl_spherical r theta phi
                                    VcrossBr VcrossBt VcrossBp) ;;
  Py.for_each (Py.range 3)
    (fun i WBs =>
       if String.eqb dynamo_type "alpha-omega" then
         ci <- component curl_aB i ;;
         c2 <- component curl_aB 2 ;;
         vi <- component curl_VcrossB i ;;
         Py.ret (WBs ++ [(Ra *: (ci - c2) + Ro *: vi)%field])
       else if String.eqb dynamo_type "alpha2-omega" then
         ci <- component curl_aB i ;;
         vi <- component curl_VcrossB i ;;
         Py.ret (WBs ++ [(Ra *: ci + Ro *: vi)%field])
       else
         Py.raise (Py.AssertionError
                     ("Invalid option: dynamo_type=" ++ dynamo_type)))
    [].

(** Lines 188-200. *)
Definition WBmodes_on_in (galerkin_grid : Grid) (dynamo_type : string)
           (Bmodes : list (list arr3)) (Vs : list arr3) (alpha : arr3)
  : Py.M (list (list arr3)) :=
  Py.for_each Bmodes
    (fun Bmode WBmodes =>
       u <- global "perturbation_operator" ;;
       B0 <- Py.getitem Bmode 0 ;;
       B1 <- Py.getitem Bmode 1 ;;
       B2 <- Py.getitem Bmode 2 ;;
       V0 <- Py.getitem Vs 0 ;;
       V1 <- Py.getitem Vs 1 ;;
       V2 <- Py.getitem Vs 2 ;;
       u <- globals ["Ra"; "Ro"]%string ;;
       WB <- perturbation_operator_in (r_spherical galerkin_grid)
               (theta galerkin_grid) (phi galerkin_grid)
               B0 B1 B2 V0 V1 V2 alpha Ra Ro dynamo_type ;;
       Py.ret (WBmodes ++ [WB]))
    [].

(** Lines 207-212. *)
Definition coupling_integrand_in (galerkin_grid : Grid)
           (Bmodes : list (list arr3)) (sintheta : arr3) (i j : nat)
  : Py.M arr3 :=
  u <- global "self" ;;
  let integrand := get_prototype galerkin_grid in
  let integrand := (integrand :* 0.0)%field in
  integrand <-
    Py.for_each (Py.range 3)
      (fun k integrand =>
         Bmode <- Bmode_after_loop Bmodes ;;
         Bmode_i <- Py.getitem Bmode i ;;
         Bmode_i_k <- Py.getitem Bmode_i k ;;
         u <- global "WBmode" ;;
         WBmode_j <- Py.getitem WBmode j ;;
         WBmode_j_k <- Py.getitem WBmode_j k ;;
         Py.ret (integrand + broadcast_mul Bmode_i_k WBmode_j_k)%field)
      integrand ;;
  Py.ret (integrand * (r_spherical galerkin_grid ^ 2 * sintheta))%field.

(** Lines 214-219. *)
Definition integrate_phi_in (integrand : arr3) : Py.M arr2 :=
  u <- global "dphi" ;;
  if Req_dec_T dphi 0 then
    (* Assuming axisymmetry *)
    match first_along_last_axis integrand with
    | Some slice =>
        u <- global "N" ;;
        Py.ret (map (map (fun v => v * 2.0 * PI)) slice)
    | None => Py.raise Py.IndexError
    end
  else
    u <- global "integrate" ;;
    Py.ret (simps3 integrand dphi).

(** Lines 204-223 for one [i]: the entry [Wij[i,j]] is read before the
    right-hand side of [+=] is computed. *)
Definition row_loop_in (galerkin_grid : Grid) (Bmodes : list (list arr3))
           (sintheta : arr3) (i : nat) (js : list nat)
           (Wij : list (list R)) : Py.M (list (list R)) :=
  Py.for_each js
    (fun j Wij =>
       if Nat.eqb i j then Py.ret Wij
       else
         integrand <- coupling_integrand_in galerkin_grid Bmodes sintheta
                        i j ;;
         integrand <- integrate_phi_in integrand ;;
         u <- globals ["integrate"; "dtheta"]%string ;;
         let integrand := simps2 integrand dtheta in
         w <- match mget Wij i j with
              | Some w => Py.ret w
              | None => Py.raise Py.IndexError
              end ;;
         u <- globals ["integrate"; "dr"]%string ;;
         matrix_add Wij i j (simps integrand dr))
    Wij.

Definition coupling_loop_in (galerkin_grid : Grid)
           (Bmodes : list (list arr3)) (sintheta : arr3)
           (ns js : list nat) (Wij : list (list R))
  : Py.M (list (list R)) :=
  Py.for_each ns
    (fun i Wij => row_loop_in galerkin_grid Bmodes sintheta i js Wij) Wij.

(** Lines 225-227. *)
Definition diagonal_loop_in (ns : list nat) (Wij : list (list R))
  : Py.M (list (list R)) :=
  Py.for_each ns
    (fun i Wij =>
       u <- global "gamma" ;;
       gamma_i <- Py.getitem gamma i ;;
       matrix_set Wij i i gamma_i)
    Wij.

(** Lines 117-234, with the parameters in an order that compiles. *)
Definition Galerkin_expansion_coefficients_in
           (galerkin_grid : Grid) (symmetric : bool)
           (dynamo_type : string) (n_free_decay_modes : nat)
           (return_matrix : bool)
           (function_V : arr3 -> arr3 -> arr3 -> vec3)
           (function_alpha : arr3 -> arr3 -> arr3 -> arr3)
  : Py.M (eigenvalues * eigenvectors * option (list (list R))) :=
  let local_r_sph_grid := get_local_data (r_spherical galerkin_grid) in
  let local_phi_grid := get_local_data (phi galerkin_grid) in
  let local_theta_grid := get_local_data (theta galerkin_grid) in
  (* line 154 *)
  u <- global "nmodes" ;;
  (* lines 156-162, when the loop runs *)
  u <- (if (1 <=? nmodes)%nat
        then globals ["halo_free_decay_modes"; "symmetry"; "self"]%string
        else Py.ret tt) ;;
  let Bmodes := Bmodes_on galerkin_grid in
  (* line 170 *)
  u <- global "N" ;;
  let local_sintheta := map3 Rtrigo_def.sin local_theta_grid in
  let local_alpha :=
    function_alpha local_r_sph_grid local_theta_grid local_phi_grid in
  let local_Vs :=
    sequence_of
      (function_V local_r_sph_grid local_theta_grid local_phi_grid) in
  (* line 180 *)
  u <- global "self" ;;
  let sintheta :=
    set_local_data (get_prototype galerkin_grid) local_sintheta in
  let Vs :=
    set_each [get_prototype galerkin_grid; get_prototype galerkin_grid;
              get_prototype galerkin_grid] local_Vs in
  let alpha :=
    set_local_data (get_prototype galerkin_grid) local_alpha in
  WBmodes <- WBmodes_on_in galerkin_grid dynamo_type Bmodes Vs alpha ;;
  let Wij := zeros nmodes nmodes in
  Wij <- coupling_loop_in galerkin_grid Bmodes sintheta
           (Py.range n_free_decay_modes) (Py.range n_free_decay_modes)
           Wij ;;
  Wij <- diagonal_loop_in (Py.range n_free_decay_modes) Wij ;;
  let '(val, vec) := eig Wij in
  if negb return_matrix then Py.ret (val, vec, None)
  else Py.ret (val, vec, Some Wij).

End Generator.

End B_generator_halo.


(* ================================================================== *)
(** * Vocabulary of the statements *)
(* ================================================================== *)

(** The three components a mode function returns. *)
Definition B_r {A : Type} (B : A * A * A) : A := fst (fst B).
Definition B_theta {A : Type} (B : A * A * A) : A := snd (fst B).
Definition B_phi {A : Type} (B : A * A * A) : A := snd B.

(** The modes by the parity their docstrings give ("Purely toroidal.",
    "Purely poloidal"). *)
Definition toroidal_modes (J : R -> R -> R) (garbage : nat -> R) :=
  [ halo_free_decay_modes.get_B_a_3 J garbage;
    halo_free_decay_modes.get_B_s_2 J garbage;
    halo_free_decay_modes.get_B_s_4 J garbage ].

Definition poloidal_modes (J : R -> R -> R) (garbage : nat -> R) :=
  [ halo_free_decay_modes.get_B_a_1 J garbage;
    halo_free_decay_modes.get_B_a_2 J garbage;
    halo_free_decay_modes.get_B_a_4 J garbage;
    halo_free_decay_modes.get_B_s_1 J garbage;
    halo_free_decay_modes.get_B_s_3 J garbage ].

(** The matrix in what the solver returned (empty when there is none). *)
Definition returned_matrix {E V : Type}
           (o : Py.outcome (E * V * option (list (list R))) * Py.calls)
  : list (list R) :=
  match fst o with
  | Py.Returns (_, _, Some W) => W
  | _ => []
  end.

(** Agreement within a relative tolerance. *)
Definition isclose (rtol x y : R) : Prop :=
  Rabs (x - y) <= rtol * Rmax (Rabs x) (Rabs y).

(** The closed form of the Bessel function of order 7/2,
    [J_{7/2}(y) = sqrt(2/(pi y)) ((15/y^3 - 6/y) sin y - (15/y^2 - 1) cos y)]. *)
Definition J_seven_halves (y : R) : R :=
  sqrt (2 / (PI * y))
  * ((15 / y ^ 3 - 6 / y) * sin y - (15 / y ^ 2 - 1) * cos y).

(** A Bessel function for the examples: the closed form at order 7/2 is all
    they read. *)
Definition J_example (v y : R) : R := J_seven_halves y.

Definition no_garbage (i : nat) : R := 0.

(** ** Inputs of the examples

    A grid of three radii, three polar angles and one azimuth, and stand-ins
    for the helpers the source tree does not hold.  The pointwise cross
    product is the usual one; [curl_example] only hands its field back (no
    statement below depends on what the curl computes). *)

Definition field_example (x0 x1 x2 : R) : Field.arr3 :=
  [ [[x0]; [x0]; [x0]]; [[x1]; [x1]; [x1]]; [[x2]; [x2]; [x2]] ].

Definition theta_example : Field.arr3 :=
  [ [[PI/6]; [PI/2]; [5*PI/6]]; [[PI/6]; [PI/2]; [5*PI/6]];
    [[PI/6]; [PI/2]; [5*PI/6]] ].

Definition grid_example : B_generator_halo.Grid :=
  {| B_generator_halo.r_spherical := field_example (1/2) 1 (3/2);
     B_generator_halo.theta := theta_example;
     B_generator_halo.phi := field_example 0 0 0;
     B_generator_halo.r_cylindrical := field_example (1/2) 1 (3/2);
     B_generator_halo.z := field_example 0 0 0;
     B_generator_halo.get_prototype := field_example 7 7 7 |}.

Definition curl_example (r theta phi Fr Ft Fp : Field.arr3)
  : B_generator_halo.vec3 := (Fr, Ft, Fp).

Definition cross_example (Ar At Ap Br Bt Bp : Field.arr3)
  : B_generator_halo.vec3 :=
  ((At * Bp - Ap * Bt)%field, (Ap * Br - Ar * Bp)%field,
   (Ar * Bt - At * Br)%field).

Definition get_mode_example (r theta phi : Field.arr3) (imode : nat)
           (symmetry : bool) : B_generator_halo.vec3 :=
  (r, (INR imode *: r)%field, theta).

(** Composite Simpson rule with spacing [dx], for an odd number of
    samples. *)
Fixpoint basic_simps (y : list R) : R :=
  match y with
  | y0 :: y1 :: ((y2 :: _) as rest) => (y0 + 4 * y1 + y2) + basic_simps rest
  | _ => 0
  end.

Definition simps_example (y : list R) (dx : R) : R :=
  dx / 3 * basic_simps y.

Definition eig_example (W : list (list R)) : list R * list (list R) :=
  ([], W).

Definition WBmode_example : list (list Field.arr3) :=
  [ [field_example 1 1 1; field_example 1 1 1; field_example 1 1 1];
    [field_example 2 2 2; field_example 2 2 2; field_example 2 2 2] ].

Definition function_V_example (r theta phi : Field.arr3)
  : B_generator_halo.vec3 := (phi, phi, r).

Definition function_alpha_example (r theta phi : Field.arr3)
  : Field.arr3 := theta.

(** The solver on the example: two modes, [gamma = [-1; -2]], a grid with
    a single azimuth ([dphi = 0]), [dtheta = pi/3] and [dr = 1/2]. *)
Definition solver_example (Ra Ro : R)
  : Py.M (list R * list (list R) * option (list (list R))) :=
  B_generator_halo.Galerkin_expansion_coefficients
    curl_example cross_example bool get_mode_example simps_example
    (list R) (list (list R)) eig_example
    (field_example 1 1 1) 2 false Ra Ro 0 (PI/3) (1/2) [-1; -2]
    WBmode_example
    grid_example false "alpha-omega" 2 true
    function_V_example function_alpha_example.

(** Every name bound: the scope under which the bodies run to their
    end. *)
Definition every_name (name : string) : bool := true.

(** The solver with every name bound, three modes ([nmodes = 3],
    [gamma = [-1; -2; -3]]) and [n_free_decay_modes = 2]. *)
Definition solver_example_wide
  : Py.M (list R * list (list R) * option (list (list R))) :=
  B_generator_halo.Galerkin_expansion_coefficients_in
    curl_example cross_example bool get_mode_example simps_example
    (list R) (list (list R)) eig_example
    (field_example 1 1 1) 3 false 0 0 0 (PI/3) (1/2) [-1; -2; -3]
    WBmode_example every_name
    grid_example false "alpha-omega" 2 true
    function_V_example function_alpha_example.

(** An integrand with three azimuths and one with a single azimuth. *)
Definition three_azimuths : Field.arr3 := [ [[1; 5; 9]] ].
Definition one_azimuth : Field.arr3 := [ [[7]] ].

(** ** Vocabulary of the further properties *)

(** A float of a grid is a number or NaN.  The comparisons [r <= c] and
    [r > c] are both False at NaN, so that a NaN radius is selected by
    neither mask. *)
Inductive sample : Type :=
| Number (x : R)
| NaN.

Definition sample_le_mask (r : list sample) (c : R) : list bool :=
  map (fun s => match s with
                | Number x => if Rle_dec x c then true else false
                | NaN => false
                end) r.

Definition sample_gt_mask (r : list sample) (c : R) : list bool :=
  map (fun s => match s with
                | Number x => if Rgt_dec x c then true else false
                | NaN => false
                end) r.

(** The eight mode functions, in the order of the file. *)
Definition mode_functions :=
  [ halo_free_decay_modes.get_B_a_1; halo_free_decay_modes.get_B_a_2;
    halo_free_decay_modes.get_B_a_3; halo_free_decay_modes.get_B_a_4;
    halo_free_decay_modes.get_B_s_1; halo_free_decay_modes.get_B_s_2;
    halo_free_decay_modes.get_B_s_3; halo_free_decay_modes.get_B_s_4 ].

(** An array of [n] entries (and not a scalar). *)
Definition is_array (n : nat) (a : Numpy.nd) : Prop :=
  exists xs, a = Numpy.Ar xs /\ length xs = n.

(** A formula that turns an array into an array of as many entries. *)
Definition elementwise (f : Numpy.nd -> Numpy.nd) : Prop :=
  forall xs, is_array (length xs) (f (Numpy.Ar xs)).


(** The interior and exterior formulas of the radial profile [Q] of each
    mode; for each poloidal mode, those of [Q] and of the profile [X] of its
    polar component. *)
Definition radial_profiles (J : R -> R -> R) :=
  [ (halo_free_decay_modes.a_1_Q_int J, halo_free_decay_modes.a_1_Q_ext J);
    (halo_free_decay_modes.a_2_Q_int J, halo_free_decay_modes.a_2_Q_ext J);
    (halo_free_decay_modes.a_3_Q_int J, halo_free_decay_modes.a_3_Q_ext J);
    (halo_free_decay_modes.s_1_Q_int J, halo_free_decay_modes.s_1_Q_ext J);
    (halo_free_decay_modes.s_2_Q_int J, halo_free_decay_modes.s_2_Q_ext J);
    (halo_free_decay_modes.s_3_Q_int J, halo_free_decay_modes.s_3_Q_ext J);
    (halo_free_decay_modes.s_4_Q_int J, halo_free_decay_modes.s_4_Q_ext J) ].

Definition poloidal_profiles (J : R -> R -> R) :=
  [ ((halo_free_decay_modes.a_1_Q_int J, halo_free_decay_modes.a_1_Q_ext J),
     (halo_free_decay_modes.a_1_X_int, halo_free_decay_modes.a_1_X_ext J));
    ((halo_free_decay_modes.a_2_Q_int J, halo_free_decay_modes.a_2_Q_ext J),
     (halo_free_decay_modes.a_2_X_int, halo_free_decay_modes.a_2_X_ext J));
    ((halo_free_decay_modes.s_1_Q_int J, halo_free_decay_modes.s_1_Q_ext J),
     (halo_free_decay_modes.s_1_X_int, halo_free_decay_modes.s_1_X_ext J));
    ((halo_free_decay_modes.s_3_Q_int J, halo_free_decay_modes.s_3_Q_ext J),
     (halo_free_decay_modes.s_3_X_int, halo_free_decay_modes.s_3_X_ext J)) ].

(** The value a profile takes at the radius [x]: the one entry of the array
    that the two masked assignments leave on the grid [[x]]. *)
Definition entry (a : Numpy.nd) : R :=
  match a with
  | Numpy.Sc v => v
  | Numpy.Ar (v :: _) => v
  | Numpy.Ar [] => 0
  end.

Definition profile_at (garbage : nat -> R)
           (f_int f_ext : Numpy.nd -> Numpy.nd) (x : R) : R :=
  entry (halo_free_decay_modes.piecewise (Numpy.empty_like garbage [x]) [x]
           f_int f_ext).


(** The closed form of the Bessel function of order 3/2,
    [J_{3/2}(y) = sqrt(2/(pi y)) (sin y / y - cos y)]. *)
Definition J_three_halves (y : R) : R :=
  sqrt (2 / (PI * y)) * (sin y / y - cos y).

(* ================================================================== *)
(** * Properties of the mode library *)
(* ================================================================== *)

Lemma zeros_like_identically_zero (r : list R) :
  Numpy.identically_zero (length r) (Numpy.zeros_like r).
Proof.
  exists (map (fun _ => 0) r). split; [reflexivity|]. split.
  - apply length_map.
  - induction r as [|x r IH]; simpl; constructor; auto.
Qed.

(** C3.  On a grid with positive radii, each toroidal mode ([get_B_a_3],
    [get_B_s_2], [get_B_s_4]) returns radial and polar components that are
    zero at every grid point, and each poloidal mode ([get_B_a_1],
    [get_B_a_2], [get_B_a_4], [get_B_s_1], [get_B_s_3]) returns an azimuthal
    component that is zero at every grid point, whatever [C] and [k]. *)
Theorem toroidal_and_poloidal_zero_components
        (J : R -> R -> R) (garbage : nat -> R)
        (r theta phi : list R) (C k : option R) :
  length theta = length r ->
  length phi = length r ->
  Forall (fun x => 0 < x) r ->
  (forall get_B, In get_B (toroidal_modes J garbage) ->
     Numpy.identically_zero (length r) (B_r (get_B r theta phi C k)) /\
     Numpy.identically_zero (length r) (B_theta (get_B r theta phi C k))) /\
  (forall get_B, In get_B (poloidal_modes J garbage) ->
     Numpy.identically_zero (length r) (B_phi (get_B r theta phi C k))).
Proof.
  intros _ _ _. split.
  - intros get_B Hin. simpl in Hin.
    destruct Hin as [<-|[<-|[<-|[]]]];
      split; apply zeros_like_identically_zero.
  - intros get_B Hin. simpl in Hin.
    destruct Hin as [<-|[<-|[<-|[<-|[<-|[]]]]]];
      apply zeros_like_identically_zero.
Qed.

Lemma toroidal_and_poloidal_zero_components_witness :
  (forall get_B, In get_B (toroidal_modes J_example no_garbage) ->
     Numpy.identically_zero 2
       (B_r (get_B [1/2; 3/2] [1; 2] [0; 0] None None)) /\
     Numpy.identically_zero 2
       (B_theta (get_B [1/2; 3/2] [1; 2] [0; 0] None None))) /\
  (forall get_B, In get_B (poloidal_modes J_example no_garbage) ->
     Numpy.identically_zero 2
       (B_phi (get_B [1/2; 3/2] [1; 2] [0; 0] None None))).
Proof.
  apply (toroidal_and_poloidal_zero_components
           J_example no_garbage [1/2; 3/2] [1; 2] [0; 0] None None).
  - reflexivity.
  - reflexivity.
  - repeat constructor; lra.
Defined.

(** C10.  With its default constants, [get_B_a_4] returns the three arrays
    that [get_B_a_1] returns on the same grid with [C=0.244] and
    [k=2*pi]. *)
Theorem get_B_a_4_is_get_B_a_1_reparameterized
        (J : R -> R -> R) (garbage : nat -> R) (r theta phi : list R) :
  halo_free_decay_modes.get_B_a_4 J garbage r theta phi None None =
  halo_free_decay_modes.get_B_a_1 J garbage r theta phi
                                  (Some 0.244) (Some (2 * PI)).
Proof.
  unfold halo_free_decay_modes.get_B_a_4, halo_free_decay_modes.kw,
    halo_free_decay_modes.pi.
  reflexivity.
Qed.

(** ** The polar component of [get_B_a_2] at the unit sphere *)

Lemma sin_5763_neg : sin 5.763 < 0.
Proof.
  assert (H3 := PI2_3_2). assert (H4 := PI_4).
  apply sin_lt_0; lra.
Qed.

Lemma PI_lt_7_2 : PI < 7/2.
Proof.
  destruct (PI_ineq 1) as [_ H].
  unfold tg_alt, PI_tg in H. simpl in H. lra.
Qed.

Lemma cos_5763_pos : 0 < cos 5.763.
Proof.
  assert (H3 := PI2_3_2). assert (H4 := PI_lt_7_2).
  replace 5.763 with ((5.763 - 2 * PI) + 2 * INR 1 * PI) by (simpl; lra).
  rewrite cos_period. apply cos_gt_0; lra.
Qed.

Lemma Rpower_three_halves (k : R) : 0 < k -> Rpower k (3 / 2) = k * sqrt k.
Proof.
  intro Hk. replace (3 / 2) with (1 + / 2) by lra.
  rewrite Rpower_plus, Rpower_1, Rpower_sqrt by assumption. reflexivity.
Qed.

Lemma Rpower_base_1 (e : R) : Rpower 1 e = 1.
Proof. unfold Rpower. rewrite ln_1, Rmult_0_r. apply exp_0. Qed.

Lemma a_2_first_terms_cancel (A k : R) :
  0 < k ->
  A / sqrt (2 * PI * 1 * (k * 1))
  - k * sqrt 1 * A / sqrt (2 * PI) / Rpower (k * 1) (3 / 2) = 0.
Proof.
  intro Hk. assert (Hpi := PI_RGT_0).
  rewrite !Rmult_1_r, sqrt_1, Rpower_three_halves by assumption.
  rewrite (sqrt_mult (2 * PI) k) by lra.
  assert (0 < sqrt (2 * PI)) by (apply sqrt_lt_R0; lra).
  assert (0 < sqrt k) by (apply sqrt_lt_R0; lra).
  field. repeat split; lra.
Qed.

Lemma a_2_A_pos (s c : R) :
  s < 0 -> 0 < c ->
  0 < (15 / 5.763 ^ 3 - 6 / 5.763) * s - (15 / 5.763 ^ 2 - 1) * c.
Proof.
  intros Hs Hc. simpl. lra.
Qed.

Lemma not_isclose_opposite_signs (x y : R) :
  y < 0 -> 0 < x -> ~ isclose 1e-6 x y.
Proof.
  intros Hy Hx. unfold isclose.
  rewrite (Rabs_pos_eq (x - y)) by lra.
  rewrite (Rabs_pos_eq x) by lra.
  rewrite (Rabs_left y) by lra.
  unfold Rmax. destruct (Rle_dec x (- y)); lra.
Qed.

(** C4.  At [r = 1] and [theta = pi/2], with the default [C] and [k], the
    polar component that [get_B_a_2] computes from its interior formula is
    positive, while its exterior formula gives a negative value at the same
    point: the two pieces do not agree within a relative tolerance of
    [1e-6].  [J] is only asked to be the Bessel function at order 7/2 and
    argument [5.763]. *)
Theorem get_B_a_2_polar_component_jumps_at_unit_sphere
        (J : R -> R -> R) (garbage : nat -> R) :
  J (7.0/2.0) 5.763 = J_seven_halves 5.763 ->
  exists b_int b_ext : R,
    B_theta (halo_free_decay_modes.get_B_a_2 J garbage [1] [PI/2] [0]
                                             None None)
    = Numpy.Ar [b_int] /\
    halo_free_decay_modes.a_2_Btheta 0.250 [1] [PI/2]
      (halo_free_decay_modes.a_2_X_ext J 5.763 (Numpy.Ar [1]))
    = Numpy.Ar [b_ext] /\
    b_ext < 0 /\ 0 < b_int /\ ~ isclose 1e-6 b_int b_ext.
Proof.
  intro HJ.
  assert (Hs := sin_5763_neg). assert (Hc := cos_5763_pos).
  assert (Hpi := PI_RGT_0).
  assert (HJpos : 0 < J (7.0/2.0) 5.763).
  { rewrite HJ. unfold J_seven_halves.
    apply Rmult_lt_0_compat.
    - apply sqrt_lt_R0. apply Rdiv_lt_0_compat; [lra|].
      apply Rmult_lt_0_compat; lra.
    - apply a_2_A_pos; assumption. }
  eexists. eexists. split; [|split].
  - unfold halo_free_decay_modes.get_B_a_2, B_theta,
      halo_free_decay_modes.piecewise. simpl.
    destruct (Rle_dec 1 1) as [_|n]; [|exfalso; lra].
    destruct (Rgt_dec 1 1) as [n|_]; [exfalso; lra|].
    simpl. reflexivity.
  - unfold halo_free_decay_modes.a_2_Btheta. simpl. reflexivity.
  - unfold halo_free_decay_modes.kw, halo_free_decay_modes.pi, Numpy.power.
    rewrite sin_PI2, cos_PI2, Rpower_base_1.
    rewrite (a_2_first_terms_cancel _ 5.763) by lra.
    rewrite !Rmult_1_r.
    set (B := (-45 * sin 5.763 / _ / 1 + _ + _ - _ - _)).
    assert (HB : 0 < B) by (unfold B; lra).
    assert (Hq : 0 < sqrt (2 / PI) * B / sqrt 5.763).
    { apply Rdiv_lt_0_compat; [|apply sqrt_lt_R0; lra].
      apply Rmult_lt_0_compat; [|assumption].
      apply sqrt_lt_R0. apply Rdiv_lt_0_compat; lra. }
    set (q := sqrt (2 / PI) * B / sqrt 5.763) in *.
    set (j := J (7.0 / 2.0) 5.763) in *.
    simpl pow.
    assert (H1 : 0.250 * (- (1) / 1) * (-3 * j) * (5 * (0 * 0) - 1) < 0)
      by lra.
    assert (H2 : 0 < 0.250 * (- (1) / 1) * (0 + q) * (5 * (0 * (0 * 1)) - 1))
      by lra.
    split; [exact H1|]. split; [exact H2|].
    apply not_isclose_opposite_signs; assumption.
Qed.

Lemma get_B_a_2_polar_component_jumps_at_unit_sphere_witness :
  exists b_int b_ext : R,
    B_theta (halo_free_decay_modes.get_B_a_2 J_example no_garbage
                                             [1] [PI/2] [0] None None)
    = Numpy.Ar [b_int] /\
    halo_free_decay_modes.a_2_Btheta 0.250 [1] [PI/2]
      (halo_free_decay_modes.a_2_X_ext J_example 5.763 (Numpy.Ar [1]))
    = Numpy.Ar [b_ext] /\
    b_ext < 0 /\ 0 < b_int /\ ~ isclose 1e-6 b_int b_ext.
Proof.
  apply (get_B_a_2_polar_component_jumps_at_unit_sphere J_example no_garbage).
  reflexivity.
Defined.

(** The sibling [get_B_a_1]: its interior and exterior formulas for
    [X = d(rQ)/dr] agree at [r = 1] for the default [k = pi]. *)
Lemma get_B_a_1_polar_pieces_agree_at_unit_sphere (J : R -> R -> R) :
  J (3.0/2.0) PI = sqrt (2 / (PI * PI)) * (sin PI / PI - cos PI) ->
  halo_free_decay_modes.a_1_X_int PI (Numpy.Ar [1])
  = halo_free_decay_modes.a_1_X_ext J PI (Numpy.Ar [1]).
Proof.
  intro HJ. assert (Hpi := PI_RGT_0).
  unfold halo_free_decay_modes.a_1_X_int, halo_free_decay_modes.a_1_X_ext,
    halo_free_decay_modes.pi, Numpy.power.
  simpl. f_equal. f_equal.
  rewrite HJ, Rpower_base_1, !Rmult_1_r, sin_PI, cos_PI.
  replace (-0.5) with (- / 2) by lra.
  rewrite Rpower_Ropp, Rpower_sqrt by assumption.
  replace (2.0) with 2 by lra.
  rewrite (sqrt_div_alt 2 PI) by assumption.
  rewrite (sqrt_div_alt 2 (PI * PI)) by (apply Rmult_lt_0_compat; assumption).
  rewrite sqrt_square by lra.
  assert (Hs : 0 < sqrt PI) by (apply sqrt_lt_R0; assumption).
  field. split; lra.
Qed.

(* ================================================================== *)
(** * Properties of the generator *)
(* ================================================================== *)

Module GeneratorFacts.

Import Field B_generator_halo.

(** ** The monad *)

Lemma bind_returns {A B} (c : Py.M A) (k : A -> Py.M B) t v t' :
  Py.bind c k t = (Py.Returns v, t') ->
  exists x t1, c t = (Py.Returns x, t1) /\ k x t1 = (Py.Returns v, t').
Proof.
  unfold Py.bind. destruct (c t) as [[x|e] t1]; intro H.
  - exists x, t1. split; [reflexivity|exact H].
  - discriminate H.
Qed.

Lemma quiet_ret {A} (v : A) : Py.quiet (Py.ret v).
Proof. intro t. reflexivity. Qed.

Lemma quiet_raise {A} (e : Py.exception) : Py.quiet (@Py.raise A e).
Proof. intro t. reflexivity. Qed.

Lemma quiet_bind {A B} (c : Py.M A) (k : A -> Py.M B) :
  Py.quiet c -> (forall x, Py.quiet (k x)) -> Py.quiet (Py.bind c k).
Proof.
  intros Hc Hk t. unfold Py.bind.
  rewrite (Hc t). destruct (fst (c [])) as [x|e] eqn:E.
  - rewrite (Hc []), E. rewrite (Hk x t), (Hk x []). reflexivity.
  - rewrite (Hc []), E. reflexivity.
Qed.

Lemma quiet_getitem {A} (xs : list A) (i : nat) : Py.quiet (Py.getitem xs i).
Proof.
  unfold Py.getitem. destruct (nth_error xs i);
    [apply quiet_ret | apply quiet_raise].
Qed.

Lemma quiet_for_each {A S} (xs : list A) (body : A -> S -> Py.M S) :
  (forall x s, Py.quiet (body x s)) -> forall s, Py.quiet (Py.for_each xs body s).
Proof.
  intro Hb. induction xs as [|x xs IH]; intro s; simpl.
  - apply quiet_ret.
  - apply quiet_bind; [apply Hb | exact IH].
Qed.

Lemma quiet_returns {A} (c : Py.M A) t v t' :
  Py.quiet c -> c t = (Py.Returns v, t') ->
  t' = t /\ c [] = (Py.Returns v, []).
Proof.
  intros Hq H. rewrite (Hq t) in H. inversion H; subst.
  split; [reflexivity|]. rewrite (Hq []). rewrite H1. reflexivity.
Qed.

Lemma same_effect_bind {A A' B B'} (c : Py.M A) (c' : Py.M A')
      (k : A -> Py.M B) (k' : A' -> Py.M B') :
  Py.same_effect c c' ->
  (forall x x', Py.same_effect (k x) (k' x')) ->
  Py.same_effect (Py.bind c k) (Py.bind c' k').
Proof.
  intros Hc Hk t. unfold Py.bind. destruct (Hc t) as [Ht Hs].
  destruct (c t) as [[x|e] t1], (c' t) as [[x'|e'] t1'];
    simpl in *; subst; try contradiction.
  - apply Hk.
  - split; reflexivity.
Qed.

Lemma same_effect_refl {A} (c : Py.M A) : Py.same_effect c c.
Proof.
  intro t. split; [reflexivity|]. destruct (fst (c t)); reflexivity.
Qed.

Lemma same_effect_ret {A B} (x : A) (y : B) :
  Py.same_effect (Py.ret x) (Py.ret y).
Proof. intro t. split; [reflexivity|exact I]. Qed.

Lemma same_effect_getitem {A} (xs : list A) i :
  Py.same_effect (Py.getitem xs i) (Py.getitem xs i).
Proof. apply same_effect_refl. Qed.

Lemma same_effect_for_each {A S S'} (xs : list A)
      (body : A -> S -> Py.M S) (body' : A -> S' -> Py.M S') :
  (forall x s s', Py.same_effect (body x s) (body' x s')) ->
  forall s s', Py.same_effect (Py.for_each xs body s)
                              (Py.for_each xs body' s').
Proof.
  intro Hb. induction xs as [|x xs IH]; intros s s'; simpl.
  - apply same_effect_ret.
  - apply same_effect_bind; [apply Hb | exact IH].
Qed.

(** What follows a computation whose value is not used only depends on
    its effect. *)
Lemma bind_same_effect {A A' B} (c : Py.M A) (c' : Py.M A') (k : Py.M B) :
  Py.same_effect c c' ->
  forall t, Py.bind c (fun _ => k) t = Py.bind c' (fun _ => k) t.
Proof.
  intros Hc t. unfold Py.bind. destruct (Hc t) as [Ht Hs].
  destruct (c t) as [[x|e] t1], (c' t) as [[x'|e'] t1'];
    simpl in *; subst; try contradiction; reflexivity.
Qed.

(** ** Matrices *)

Lemma set_nth_same {A} (xs ys : list A) i v :
  set_nth xs i v = Some ys -> nth_error ys i = Some v.
Proof.
  revert ys i. induction xs as [|x xs IH]; intros ys i H.
  - destruct i; discriminate H.
  - destruct i as [|i]; simpl in H.
    + inversion H; reflexivity.
    + destruct (set_nth xs i v) as [zs|] eqn:E; [|discriminate H].
      inversion H; subst. simpl. apply (IH _ _ E).
Qed.

Lemma set_nth_other {A} (xs ys : list A) i k v :
  set_nth xs i v = Some ys -> k <> i -> nth_error ys k = nth_error xs k.
Proof.
  revert ys i k. induction xs as [|x xs IH]; intros ys i k H Hk.
  - destruct i; discriminate H.
  - destruct i as [|i]; simpl in H.
    + inversion H; subst. destruct k; [contradiction|reflexivity].
    + destruct (set_nth xs i v) as [zs|] eqn:E; [|discriminate H].
      inversion H; subst. destruct k as [|k]; [reflexivity|].
      simpl. apply (IH _ _ _ E). intro; subst; apply Hk; reflexivity.
Qed.

Lemma mset_same (W W' : list (list R)) i j v :
  mset W i j v = Some W' -> mget W' i j = Some v.
Proof.
  unfold mset, mget. destruct (nth_error W i) as [row|]; [|discriminate].
  destruct (set_nth row j v) as [row'|] eqn:E; [|discriminate].
  intro H. rewrite (set_nth_same _ _ _ _ H). apply (set_nth_same _ _ _ _ E).
Qed.

Lemma mset_other (W W' : list (list R)) i j p q v :
  mset W i j v = Some W' -> (p <> i \/ q <> j) ->
  mget W' p q = mget W p q.
Proof.
  unfold mset, mget. destruct (nth_error W i) as [row|] eqn:Ei; [|discriminate].
  destruct (set_nth row j v) as [row'|] eqn:E; [|discriminate].
  intros H Hpq. destruct (Nat.eq_dec p i) as [->|Hp].
  - rewrite (set_nth_same _ _ _ _ H), Ei.
    destruct Hpq as [Hp|Hq]; [contradiction|].
    apply (set_nth_other _ _ _ _ _ E Hq).
  - rewrite (set_nth_other _ _ _ _ _ H Hp). reflexivity.
Qed.

Lemma mget_zeros n m i j w : mget (zeros n m) i j = Some w -> w = 0.
Proof.
  unfold mget, zeros. destruct (nth_error (repeat (repeat 0 m) n) i) as [row|] eqn:E;
    [|discriminate].
  apply nth_error_In in E. apply repeat_spec in E. subst row.
  intro H. apply nth_error_In in H. apply repeat_spec in H. exact H.
Qed.


(** ** The perturbation operator *)

Section Operator.

Variable curl_spherical : arr3 -> arr3 -> arr3 -> arr3 -> arr3 -> arr3 -> vec3.
Variable cross : arr3 -> arr3 -> arr3 -> arr3 -> arr3 -> arr3 -> vec3.
Variable a : arr3.
Variables r theta phi Br Bt Bp Vr Vt Vp : arr3.

Let operator := perturbation_operator curl_spherical cross a
                                       r theta phi Br Bt Bp Vr Vt Vp.
Let c := curl_aB curl_spherical a r theta phi Br Bt Bp.
Let v := curl_VcrossB curl_spherical cross r theta phi Br Bt Bp Vr Vt Vp.

Lemma operator_alpha_omega alpha Ra Ro t :
  operator alpha Ra Ro "alpha-omega"%string t
  = (Py.Returns
       [ (Ra *: (B_r c - B_phi c) + Ro *: B_r v)%field;
         (Ra *: (B_theta c - B_phi c) + Ro *: B_theta v)%field;
         (Ra *: (B_phi c - B_phi c) + Ro *: B_phi v)%field ],
     t ++ ["curl_spherical"; "cross"; "curl_spherical"]%string).
Proof.
  unfold operator, c, v, perturbation_operator, curl_aB, curl_VcrossB,
    Py.bind, Py.call.
  destruct (cross Vr Vt Vp Br Bt Bp) as [[x y] z'].
  simpl. rewrite <- !app_assoc. reflexivity.
Qed.

Lemma operator_alpha2_omega alpha Ra Ro t :
  operator alpha Ra Ro "alpha2-omega"%string t
  = (Py.Returns
       [ (Ra *: B_r c + Ro *: B_r v)%field;
         (Ra *: B_theta c + Ro *: B_theta v)%field;
         (Ra *: B_phi c + Ro *: B_phi v)%field ],
     t ++ ["curl_spherical"; "cross"; "curl_spherical"]%string).
Proof.
  unfold operator, c, v, perturbation_operator, curl_aB, curl_VcrossB,
    Py.bind, Py.call.
  destruct (cross Vr Vt Vp Br Bt Bp) as [[x y] z'].
  simpl. rewrite <- !app_assoc. reflexivity.
Qed.

Lemma operator_other_tag alpha Ra Ro dynamo_type t :
  dynamo_type <> "alpha-omega"%string ->
  dynamo_type <> "alpha2-omega"%string ->
  operator alpha Ra Ro dynamo_type t
  = (Py.Raises
       (Py.AssertionError ("Invalid option: dynamo_type=" ++ dynamo_type)),
     t ++ ["curl_spherical"; "cross"; "curl_spherical"]%string).
Proof.
  intros H1 H2.
  unfold operator, perturbation_operator, Py.bind, Py.call.
  destruct (cross Vr Vt Vp Br Bt Bp) as [[x y] z'].
  simpl.
  destruct (String.eqb_spec dynamo_type "alpha-omega"); [contradiction|].
  destruct (String.eqb_spec dynamo_type "alpha2-omega"); [contradiction|].
  unfold Py.raise. rewrite <- !app_assoc. reflexivity.
Qed.


(** C1.  Under each of the two tags the operator returns the three
    components the claim gives, with the curl of the field scaled by the
    name [a] in the place of the curl of [alpha*B]: the argument [alpha] is
    not read, so the operator returns the same for every alpha sample. *)
Theorem perturbation_operator_combines_curls_of_a_not_alpha
        alpha Ra Ro t :
  perturbation_operator curl_spherical cross a r theta phi Br Bt Bp
                        Vr Vt Vp alpha Ra Ro "alpha-omega" t
  = (Py.Returns
       (map (fun i =>
               (Ra *: (i (curl_aB curl_spherical a r theta phi Br Bt Bp)
                       - B_phi (curl_aB curl_spherical a r theta phi
                                        Br Bt Bp))
                + Ro *: i (curl_VcrossB curl_spherical cross r theta phi
                                        Br Bt Bp Vr Vt Vp))%field)
            [B_r; B_theta; B_phi]),
     t ++ ["curl_spherical"; "cross"; "curl_spherical"]%string)
  /\
  perturbation_operator curl_spherical cross a r theta phi Br Bt Bp
                        Vr Vt Vp alpha Ra Ro "alpha2-omega" t
  = (Py.Returns
       (map (fun i =>
               (Ra *: i (curl_aB curl_spherical a r theta phi Br Bt Bp)
                + Ro *: i (curl_VcrossB curl_spherical cross r theta phi
                                        Br Bt Bp Vr Vt Vp))%field)
            [B_r; B_theta; B_phi]),
     t ++ ["curl_spherical"; "cross"; "curl_spherical"]%string)
  /\
  (forall alpha' dynamo_type,
     perturbation_operator curl_spherical cross a r theta phi Br Bt Bp
                           Vr Vt Vp alpha' Ra Ro dynamo_type t
     = perturbation_operator curl_spherical cross a r theta phi Br Bt Bp
                             Vr Vt Vp alpha Ra Ro dynamo_type t).
Proof.
  split; [|split].
  - apply operator_alpha_omega.
  - apply operator_alpha2_omega.
  - intros alpha' dynamo_type. reflexivity.
Qed.


End Operator.

(** The calls the operator makes and the way it ends depend on the tag
    alone. *)
Lemma operator_same_effect
      (curl_spherical cross :
         arr3 -> arr3 -> arr3 -> arr3 -> arr3 -> arr3 -> vec3)
      (a r theta phi : arr3) (B0 B1 B2 V0 V1 V2 alpha : arr3)
      (B0' B1' B2' V0' V1' V2' alpha' : arr3) (Ra Ro Ra' Ro' : R)
      (dynamo_type : string) :
  Py.same_effect
    (perturbation_operator curl_spherical cross a r theta phi B0 B1 B2
                           V0 V1 V2 alpha Ra Ro dynamo_type)
    (perturbation_operator curl_spherical cross a r theta phi B0' B1' B2'
                           V0' V1' V2' alpha' Ra' Ro' dynamo_type).
Proof.
  intro t.
  destruct (String.eqb_spec dynamo_type "alpha-omega") as [->|H1].
  { rewrite !operator_alpha_omega. simpl. auto. }
  destruct (String.eqb_spec dynamo_type "alpha2-omega") as [->|H2].
  { rewrite !operator_alpha2_omega. simpl. auto. }
  rewrite !operator_other_tag by assumption. simpl. auto.
Qed.

(** ** The two tags compared *)

Lemma subtraction_term_1 (Ra Ro : R) :
  forall c2 ci vi : list R,
    length ci = length c2 -> length vi = length c2 ->
    Numpy.zip_with Rminus
      (Numpy.zip_with Rplus (map (Rmult Ra) ci) (map (Rmult Ro) vi))
      (Numpy.zip_with Rplus
         (map (Rmult Ra) (Numpy.zip_with Rminus ci c2))
         (map (Rmult Ro) vi))
    = map (Rmult Ra) c2.
Proof.
  induction c2 as [|z c2 IH]; intros [|x ci] [|y vi] Hc Hv;
    try discriminate; [reflexivity|].
  simpl. f_equal; [ring|]. apply IH; [inversion Hc|inversion Hv]; reflexivity.
Qed.

Lemma subtraction_term_2 (Ra Ro : R) :
  forall c2 ci vi : arr2,
    map (@length R) ci = map (@length R) c2 ->
    map (@length R) vi = map (@length R) c2 ->
    zip2 Rminus
      (zip2 Rplus (map (map (Rmult Ra)) ci) (map (map (Rmult Ro)) vi))
      (zip2 Rplus (map (map (Rmult Ra)) (zip2 Rminus ci c2))
            (map (map (Rmult Ro)) vi))
    = map (map (Rmult Ra)) c2.
Proof.
  unfold zip2.
  induction c2 as [|z c2 IH]; intros [|x ci] [|y vi] Hc Hv;
    try discriminate; [reflexivity|].
  simpl in *. inversion Hc. inversion Hv.
  f_equal; [apply subtraction_term_1; assumption|]. apply IH; assumption.
Qed.

Lemma subtraction_term_3 (Ra Ro : R) :
  forall c2 ci vi : arr3,
    shape ci = shape c2 -> shape vi = shape c2 ->
    ((Ra *: ci + Ro *: vi) - (Ra *: (ci - c2) + Ro *: vi))%field
    = (Ra *: c2)%field.
Proof.
  unfold shape, zip3, map3.
  induction c2 as [|z c2 IH]; intros [|x ci] [|y vi] Hc Hv;
    try discriminate; [reflexivity|].
  simpl in *. inversion Hc. inversion Hv.
  f_equal; [apply subtraction_term_2; assumption|]. apply IH; assumption.
Qed.

(** C5.  On the same input, when the six curl components have one shape,
    both tags return three components, and each component returned under
    'alpha2-omega' minus the one returned under 'alpha-omega' is [Ra] times
    the azimuthal component of [curl_aB], the curl of the field scaled by
    the name [a]. *)
Theorem alpha2_omega_minus_alpha_omega
        (curl_spherical cross :
           arr3 -> arr3 -> arr3 -> arr3 -> arr3 -> arr3 -> vec3)
        (a r theta phi Br Bt Bp Vr Vt Vp alpha : arr3) (Ra Ro : R)
        (t : Py.calls) :
  let c := curl_aB curl_spherical a r theta phi Br Bt Bp in
  let v := curl_VcrossB curl_spherical cross r theta phi Br Bt Bp Vr Vt Vp in
  (forall x, In x [B_r c; B_theta c; B_r v; B_theta v; B_phi v] ->
             shape x = shape (B_phi c)) ->
  exists WB WB2 t',
    perturbation_operator curl_spherical cross a r theta phi Br Bt Bp
                          Vr Vt Vp alpha Ra Ro "alpha-omega" t
    = (Py.Returns WB, t') /\
    perturbation_operator curl_spherical cross a r theta phi Br Bt Bp
                          Vr Vt Vp alpha Ra Ro "alpha2-omega" t
    = (Py.Returns WB2, t') /\
    Numpy.zip_with (fun x2 x1 => (x2 - x1)%field) WB2 WB
    = [ (Ra *: B_phi c)%field; (Ra *: B_phi c)%field;
        (Ra *: B_phi c)%field ].
Proof.
  intros c v Hshape.
  eexists. eexists. eexists.
  split; [apply operator_alpha_omega|].
  split; [apply operator_alpha2_omega|].
  fold c v. simpl.
  rewrite !subtraction_term_3;
    try reflexivity; apply Hshape; simpl; auto 10.
Qed.

Lemma alpha2_omega_minus_alpha_omega_witness :
  exists WB WB2 t',
    perturbation_operator curl_example cross_example (field_example 2 2 2)
      (field_example (1/2) 1 (3/2)) theta_example (field_example 0 0 0)
      (field_example 1 2 3) (field_example 4 5 6) (field_example 7 8 9)
      (field_example 0 0 0) (field_example 0 0 0) (field_example 1 1 1)
      (field_example 3 3 3) 2 5 "alpha-omega" []
    = (Py.Returns WB, t') /\
    perturbation_operator curl_example cross_example (field_example 2 2 2)
      (field_example (1/2) 1 (3/2)) theta_example (field_example 0 0 0)
      (field_example 1 2 3) (field_example 4 5 6) (field_example 7 8 9)
      (field_example 0 0 0) (field_example 0 0 0) (field_example 1 1 1)
      (field_example 3 3 3) 2 5 "alpha2-omega" []
    = (Py.Returns WB2, t') /\
    Numpy.zip_with (fun x2 x1 => (x2 - x1)%field) WB2 WB
    = [ (2 *: (field_example 7 8 9 * field_example 2 2 2))%field;
        (2 *: (field_example 7 8 9 * field_example 2 2 2))%field;
        (2 *: (field_example 7 8 9 * field_example 2 2 2))%field ].
Proof.
  apply (alpha2_omega_minus_alpha_omega
           curl_example cross_example (field_example 2 2 2)
           (field_example (1/2) 1 (3/2)) theta_example (field_example 0 0 0)
           (field_example 1 2 3) (field_example 4 5 6) (field_example 7 8 9)
           (field_example 0 0 0) (field_example 0 0 0) (field_example 1 1 1)
           (field_example 3 3 3) 2 5 []).
  simpl. intros x Hx.
  repeat (destruct Hx as [<-|Hx]; [reflexivity|]). destruct Hx.
Defined.



(** ** The loops of the Galerkin solver *)

Section Solver.

Variable simps : arr1 -> R -> R.
Variables dphi dtheta dr : R.
Variable gamma : list R.
Variable WBmode : list (list arr3).
Variable galerkin_grid : Grid.
Variable Bmodes : list (list arr3).
Variable sintheta : arr3.

Let integral (i j : nat) : Py.M R :=
  coupling_integral simps dphi dtheta dr WBmode galerkin_grid Bmodes
                    sintheta i j.

Lemma quiet_Bmode_after_loop : Py.quiet (Bmode_after_loop Bmodes).
Proof.
  unfold Bmode_after_loop. destruct Bmodes;
    [apply quiet_raise | apply quiet_ret].
Qed.

Lemma quiet_coupling_integrand i j :
  Py.quiet (coupling_integrand WBmode galerkin_grid Bmodes sintheta i j).
Proof.
  unfold coupling_integrand. apply quiet_bind.
  - apply quiet_for_each. intros k s.
    apply quiet_bind; [apply quiet_Bmode_after_loop|]. intro.
    repeat (apply quiet_bind; [apply quiet_getitem|]; intro).
    apply quiet_ret.
  - intro. apply quiet_ret.
Qed.

Lemma quiet_integrate_phi x : Py.quiet (integrate_phi simps dphi x).
Proof.
  unfold integrate_phi. destruct (Req_dec_T dphi 0).
  - destruct (first_along_last_axis x);
      [apply quiet_ret | apply quiet_raise].
  - apply quiet_ret.
Qed.

Lemma quiet_integral i j : Py.quiet (integral i j).
Proof.
  unfold integral, coupling_integral.
  apply quiet_bind; [apply quiet_coupling_integrand|]. intro.
  apply quiet_bind; [apply quiet_integrate_phi|]. intro.
  apply quiet_ret.
Qed.

Lemma matrix_add_returns W i j v t W' t' :
  matrix_add W i j v t = (Py.Returns W', t') ->
  t' = t /\ exists w, mget W i j = Some w /\ mset W i j (w + v) = Some W'.
Proof.
  unfold matrix_add. destruct (mget W i j) as [w|]; [|discriminate].
  destruct (mset W i j (w + v)) as [W1|] eqn:E; [|discriminate].
  intro H. inversion H; subst. split; [reflexivity|].
  exists w. split; [reflexivity|exact E].
Qed.

Lemma matrix_set_returns W i j v t W' t' :
  matrix_set W i j v t = (Py.Returns W', t') ->
  t' = t /\ mset W i j v = Some W'.
Proof.
  unfold matrix_set. destruct (mset W i j v) as [W1|] eqn:E; [|discriminate].
  intro H. inversion H; subst. split; reflexivity.
Qed.

Let row_loop := row_loop simps dphi dtheta dr WBmode galerkin_grid Bmodes
                         sintheta.
Let coupling_loop :=
  coupling_loop simps dphi dtheta dr WBmode galerkin_grid Bmodes sintheta.

Lemma row_loop_spec i js :
  NoDup js ->
  forall W0 t W t',
    row_loop i js W0 t = (Py.Returns W, t') ->
    (forall j, In j js -> j <> i ->
       exists v w0, integral i j [] = (Py.Returns v, []) /\
                    mget W0 i j = Some w0 /\ mget W i j = Some (w0 + v)) /\
    (forall p q, p <> i \/ ~ In q js \/ q = i -> mget W p q = mget W0 p q).
Proof.
  unfold row_loop, B_generator_halo.row_loop. induction 1 as [|j js Hj Hnd IH]; intros W0 t W t' H.
  - simpl in H. inversion H; subst. split; [intros j []|reflexivity].
  - simpl in H. apply bind_returns in H. destruct H as (W1 & t1 & Hstep & Hrest).
    destruct (IH _ _ _ _ Hrest) as [IH1 IH2]. clear IH.
    assert (Hstep' :
              (forall p q, p <> i \/ q <> j \/ q = i ->
                           mget W1 p q = mget W0 p q) /\
              (j <> i ->
               exists v w0, integral i j [] = (Py.Returns v, []) /\
                            mget W0 i j = Some w0 /\
                            mget W1 i j = Some (w0 + v))).
    { destruct (Nat.eqb_spec i j) as [->|Hij].
      - inversion Hstep; subst. split; [reflexivity|]. intro; contradiction.
      - apply bind_returns in Hstep. destruct Hstep as (v & t2 & Hv & Hadd).
        apply (quiet_returns _ _ _ _ (quiet_integral i j)) in Hv.
        destruct Hv as [-> Hv].
        apply matrix_add_returns in Hadd.
        destruct Hadd as (-> & w0 & Hw0 & Hset). split.
        + intros p q Hpq. apply (mset_other _ _ _ _ _ _ _ Hset).
          destruct Hpq as [Hp|[Hq|Hq]]; [left|right|right]; auto.
          subst q. auto.
        + intros _. exists v, w0. split; [exact Hv|]. split; [exact Hw0|].
          apply (mset_same _ _ _ _ _ Hset). }
    destruct Hstep' as [Hother Hthis]. split.
    + intros j' [<-|Hin] Hne.
      * destruct (Hthis Hne) as (v & w0 & Hv & Hw0 & Hw1).
        exists v, w0. split; [exact Hv|]. split; [exact Hw0|].
        rewrite IH2 by auto. exact Hw1.
      * destruct (IH1 j' Hin Hne) as (v & w1 & Hv & Hw1 & HW).
        exists v, w1. split; [exact Hv|]. split; [|exact HW].
        rewrite <- Hother; [exact Hw1|]. right; left. intro; subst; auto.
    + intros p q Hpq. rewrite IH2, Hother; [reflexivity| |].
      * destruct Hpq as [Hp|[Hq|Hq]]; [left|right;left|right;right]; auto.
        intro; subst; apply Hq; left; reflexivity.
      * destruct Hpq as [Hp|[Hq|Hq]]; [left|right;left|right;right]; auto.
        intro; apply Hq; right; assumption.
Qed.

Lemma coupling_loop_spec js :
  NoDup js ->
  forall ns, NoDup ns ->
  forall W0 t W t',
    coupling_loop ns js W0 t = (Py.Returns W, t') ->
    (forall i j, In i ns -> In j js -> i <> j ->
       exists v w0, integral i j [] = (Py.Returns v, []) /\
                    mget W0 i j = Some w0 /\ mget W i j = Some (w0 + v)) /\
    (forall p q, ~ In p ns \/ ~ In q js \/ p = q ->
                 mget W p q = mget W0 p q).
Proof.
  intros Hjs. unfold coupling_loop, B_generator_halo.coupling_loop.
  induction 1 as [|i ns Hi Hnd IH]; intros W0 t W t' H.
  - simpl in H. inversion H; subst. split; [intros i j []|reflexivity].
  - simpl in H. apply bind_returns in H.
    destruct H as (W1 & t1 & Hrow & Hrest).
    destruct (IH _ _ _ _ Hrest) as [IH1 IH2]. clear IH.
    destruct (row_loop_spec i js Hjs _ _ _ _ Hrow) as [R1 R2]. split.
    + intros i' j [<-|Hin] Hj Hne.
      * destruct (R1 j Hj (fun e => Hne (eq_sym e))) as (v & w0 & Hv & Hw0 & Hw1).
        exists v, w0. split; [exact Hv|]. split; [exact Hw0|].
        rewrite IH2 by auto. exact Hw1.
      * destruct (IH1 i' j Hin Hj Hne) as (v & w1 & Hv & Hw1 & HW).
        exists v, w1. split; [exact Hv|]. split; [|exact HW].
        rewrite <- R2; [exact Hw1|]. left. intro; subst; auto.
    + intros p q Hpq. rewrite IH2.
      * apply R2. destruct Hpq as [Hp|[Hq|Hq]].
        -- left. intro; subst; apply Hp; left; reflexivity.
        -- right; left; assumption.
        -- subst q. destruct (Nat.eq_dec p i); [right; right|left]; assumption.
      * destruct Hpq as [Hp|[Hq|Hq]]; [left|right;left|right;right]; auto.
        intro; apply Hp; right; assumption.
Qed.

Lemma diagonal_loop_spec ns :
  forall W0 t W t',
    diagonal_loop gamma ns W0 t = (Py.Returns W, t') ->
    (forall i, In i ns ->
       exists g, nth_error gamma i = Some g /\ mget W i i = Some g) /\
    (forall p q, p <> q \/ ~ In p ns -> mget W p q = mget W0 p q).
Proof.
  unfold diagonal_loop. induction ns as [|i ns IH]; intros W0 t W t' H.
  - simpl in H. inversion H; subst. split; [intros i []|reflexivity].
  - simpl in H. apply bind_returns in H.
    destruct H as (W1 & t1 & Hstep & Hrest).
    destruct (IH _ _ _ _ Hrest) as [IH1 IH2]. clear IH.
    apply bind_returns in Hstep. destruct Hstep as (g & t2 & Hg & Hset).
    unfold Py.getitem in Hg.
    destruct (nth_error gamma i) as [g'|] eqn:Eg; [|discriminate Hg].
    inversion Hg; subst g' t2. clear Hg.
    apply matrix_set_returns in Hset. destruct Hset as [-> Hset]. split.
    + intros i' Hin. destruct (in_dec Nat.eq_dec i' ns) as [Hin'|Hnin].
      * apply IH1; assumption.
      * destruct Hin as [<-|Hin]; [|contradiction].
        exists g. split; [exact Eg|]. rewrite IH2 by auto.
        apply (mset_same _ _ _ _ _ Hset).
    + intros p q Hpq. rewrite IH2.
      * apply (mset_other _ _ _ _ _ _ _ Hset).
        destruct Hpq as [Hp|Hp].
        -- destruct (Nat.eq_dec p i) as [->|]; [right; auto|left; auto].
        -- left. intro; subst; apply Hp; left; reflexivity.
      * destruct Hpq as [Hp|Hp]; [left; auto|right].
        intro; apply Hp; right; assumption.
Qed.

End Solver.


(** ** What the solver returns *)

Section Returned.

Variable curl_spherical : arr3 -> arr3 -> arr3 -> arr3 -> arr3 -> arr3 -> vec3.
Variable cross : arr3 -> arr3 -> arr3 -> arr3 -> arr3 -> arr3 -> vec3.
Variable symmetry_t : Type.
Variable get_mode : arr3 -> arr3 -> arr3 -> nat -> symmetry_t -> vec3.
Variable simps : arr1 -> R -> R.
Variables eigenvalues eigenvectors : Type.
Variable eig : list (list R) -> eigenvalues * eigenvectors.
Variable a : arr3.
Variable nmodes : nat.
Variable symmetry : symmetry_t.
Variables Ra Ro : R.
Variables dphi dtheta dr : R.
Variable gamma : list R.
Variable WBmode : list (list arr3).

Variable galerkin_grid : Grid.
Variable symmetric : bool.
Variable dynamo_type : string.
Variable n_free_decay_modes : nat.
Variable function_V : arr3 -> arr3 -> arr3 -> vec3.
Variable function_alpha : arr3 -> arr3 -> arr3 -> arr3.

Let solver (return_matrix : bool) :=
  Galerkin_expansion_coefficients
    curl_spherical cross symmetry_t get_mode simps eigenvalues eigenvectors
    eig a nmodes symmetry Ra Ro dphi dtheta dr gamma WBmode
    galerkin_grid symmetric dynamo_type n_free_decay_modes return_matrix
    function_V function_alpha.

Let Bmodes := Bmodes_on symmetry_t get_mode nmodes symmetry galerkin_grid.
Let sintheta := map3 sin (theta galerkin_grid).

(** The matrix the solver returns is the matrix of zeros after the loop
    over the pairs and the loop over the diagonal. *)
Lemma solver_returns_matrix val vec W t t' :
  solver true t = (Py.Returns (val, vec, Some W), t') ->
  exists W1 t1 t2,
    coupling_loop simps dphi dtheta dr WBmode galerkin_grid Bmodes sintheta
                  (Py.range n_free_decay_modes) (Py.range n_free_decay_modes)
                  (zeros nmodes nmodes) t1 = (Py.Returns W1, t2) /\
    diagonal_loop gamma (Py.range n_free_decay_modes) W1 t2
    = (Py.Returns W, t').
Proof.
  unfold solver, Galerkin_expansion_coefficients. intro H.
  apply bind_returns in H. destruct H as (WBmodes & t1 & _ & H).
  apply bind_returns in H. destruct H as (W1 & t2 & Hloop & H).
  apply bind_returns in H. destruct H as (W2 & t3 & Hdiag & H).
  exists W1, t1, t2. split; [exact Hloop|].
  destruct (eig W2) as [val' vec']. simpl in H. inversion H; subst.
  exact Hdiag.
Qed.


Lemma coupling_integral_returns i j v :
  coupling_integral simps dphi dtheta dr WBmode galerkin_grid Bmodes
                    sintheta i j [] = (Py.Returns v, []) ->
  exists integrand after_phi,
    coupling_integrand WBmode galerkin_grid Bmodes sintheta i j []
    = (Py.Returns integrand, []) /\
    (dphi = 0 ->
     exists slice, first_along_last_axis integrand = Some slice /\
                   after_phi = map (map (fun x => x * 2.0 * PI)) slice) /\
    (dphi <> 0 -> after_phi = simps3 simps integrand dphi) /\
    v = simps (simps2 simps after_phi dtheta) dr.
Proof.
  unfold coupling_integral. intro H.
  apply bind_returns in H. destruct H as (integrand & t1 & Hint & H).
  eapply quiet_returns in Hint; [|apply quiet_coupling_integrand; assumption].
  destruct Hint as [-> Hint].
  apply bind_returns in H. destruct H as (after_phi & t2 & Hphi & H).
  inversion H; subst. clear H.
  exists integrand, after_phi. split; [exact Hint|].
  unfold integrate_phi in Hphi. destruct (Req_dec_T dphi 0) as [Hz|Hnz].
  - destruct (first_along_last_axis integrand) as [slice|];
      [|discriminate Hphi].
    inversion Hphi; subst. split; [|split].
    + intros _. exists slice. split; reflexivity.
    + intro Hne. contradiction.
    + reflexivity.
  - inversion Hphi; subst. split; [|split].
    + intro. contradiction.
    + intros _. reflexivity.
    + reflexivity.
Qed.

(** C6.  The solver does not read what the perturbation operator
    returned: the integrand is built from the names [Bmode] and [WBmode],
    not from [Bmodes] and [WBmodes].  So the dynamo numbers have no part in
    the matrix: with any [Ra'], [Ro'] in the place of [Ra], [Ro] (zero, for
    one) the solver makes the same calls and returns the same result. *)
Theorem Galerkin_matrix_ignores_dynamo_numbers
        (Ra' Ro' : R) (return_matrix : bool) (t : Py.calls) :
  Galerkin_expansion_coefficients
    curl_spherical cross symmetry_t get_mode simps eigenvalues eigenvectors
    eig a nmodes symmetry Ra' Ro' dphi dtheta dr gamma WBmode
    galerkin_grid symmetric dynamo_type n_free_decay_modes return_matrix
    function_V function_alpha t
  = Galerkin_expansion_coefficients
      curl_spherical cross symmetry_t get_mode simps eigenvalues
      eigenvectors eig a nmodes symmetry Ra Ro dphi dtheta dr gamma WBmode
      galerkin_grid symmetric dynamo_type n_free_decay_modes return_matrix
      function_V function_alpha t.
Proof.
  unfold Galerkin_expansion_coefficients.
  apply bind_same_effect. unfold WBmodes_on.
  apply same_effect_for_each. intros Bmode s s'.
  repeat (apply same_effect_bind; [apply same_effect_getitem|]; intros ? ?).
  apply same_effect_bind; [apply operator_same_effect|]. intros ? ?.
  apply same_effect_ret.
Qed.


End Returned.

(** ** get_B_field *)

Section GetBField.

Variable _parse_parameters : instance -> Py.dict pyvalue -> Py.dict pyvalue.
Variable Grid_new : list (R * R) -> list pyvalue -> string -> Grid.
Variable jn_zeros : nat -> nat -> list R.
Variable _convert_coordinates_to_B_values :
  instance -> arr3 -> arr3 -> arr3 -> Py.dict pyvalue -> list arr3.

(** The body of the first definition does what the claim says: it builds
    the Galerkin grid and raises [NotImplementedError]. *)
Lemma get_B_field_halo_not_implemented self kwargs nGalerkin t :
  Py.lookup (_parse_parameters self kwargs) "halo_Galerkin_ngrid"
  = Some nGalerkin ->
  get_B_field_halo _parse_parameters Grid_new self kwargs t
  = (Py.Raises Py.NotImplementedError, t ++ ["Grid"%string]).
Proof.
  intro H. unfold get_B_field_halo, Py.subscript, Py.bind.
  rewrite H. reflexivity.
Qed.

(** The body of the second definition builds no grid and has no [raise]:
    it returns a field, or stops on the parameter it looks up. *)
Lemma get_B_field_disk_outcome self kwargs t :
  snd (get_B_field_disk _parse_parameters jn_zeros
                        _convert_coordinates_to_B_values self kwargs t) = t
  /\
  match fst (get_B_field_disk _parse_parameters jn_zeros
                              _convert_coordinates_to_B_values
                              self kwargs t) with
  | Py.Returns (_, Some _) => True
  | Py.Raises (Py.KeyError key) =>
      key = "disk_component_normalization"%string
  | Py.Raises Py.TypeError => True
  | _ => False
  end.
Proof.
  unfold get_B_field_disk, Py.subscript, Py.bind.
  destruct (Py.lookup (_parse_parameters self kwargs)
                      "disk_component_normalization") as [normalization|];
    [|simpl; auto].
  simpl.
  destruct normalization; simpl; auto;
    repeat match goal with
           | |- context [match ?l with [] => _ | _ :: _ => _ end] =>
               destruct l
           end; simpl; auto.
Qed.

(** C9.  In the namespace of the class the name [get_B_field] is bound to
    the definition of line 236, which replaced the one of line 41.  So a
    call of [get_B_field] on an instance runs the later body: it builds no
    Galerkin grid, it never raises [NotImplementedError], and it returns a
    field when the parameter it reads is there. *)
Theorem get_B_field_runs_the_later_definition self kwargs t :
  Py.lookup class_namespace "get_B_field" = Some def_get_B_field_236 /\
  call_get_B_field _parse_parameters Grid_new jn_zeros
                   _convert_coordinates_to_B_values self kwargs t
  = get_B_field_disk _parse_parameters jn_zeros
                     _convert_coordinates_to_B_values self kwargs t /\
  snd (call_get_B_field _parse_parameters Grid_new jn_zeros
                        _convert_coordinates_to_B_values self kwargs t) = t
  /\
  fst (call_get_B_field _parse_parameters Grid_new jn_zeros
                        _convert_coordinates_to_B_values self kwargs t)
  <> Py.Raises Py.NotImplementedError.
Proof.
  assert (Hns : Py.lookup class_namespace "get_B_field"
                = Some def_get_B_field_236) by reflexivity.
  split; [exact Hns|].
  assert (Hcall : call_get_B_field _parse_parameters Grid_new jn_zeros
                    _convert_coordinates_to_B_values self kwargs t
                  = get_B_field_disk _parse_parameters jn_zeros
                      _convert_coordinates_to_B_values self kwargs t).
  { unfold call_get_B_field. rewrite Hns. reflexivity. }
  split; [exact Hcall|]. rewrite Hcall.
  destruct (get_B_field_disk_outcome self kwargs t) as [Ht Ho].
  split; [exact Ht|]. intro Hni. rewrite Hni in Ho. exact Ho.
Qed.

End GetBField.

(** ** The solver on the example *)

Ltac run_solver_example :=
  unfold solver_example, returned_matrix, Galerkin_expansion_coefficients,
    WBmodes_on, Bmodes_on, coupling_loop, row_loop, diagonal_loop,
    coupling_integral, coupling_integrand, integrate_phi;
  simpl;
  unfold Py.bind, Py.call, Py.ret; simpl;
  destruct (Req_dec_T 0 0) as [_|n]; [|exfalso; apply n; reflexivity];
  simpl;
  unfold matrix_add, matrix_set, mget, mset; simpl.

Lemma solver_example_returns (Ra Ro : R) :
  solver_example Ra Ro []
  = (Py.Returns ([], returned_matrix (solver_example Ra Ro []),
                 Some (returned_matrix (solver_example Ra Ro []))),
     ["curl_spherical"; "cross"; "curl_spherical";
      "curl_spherical"; "cross"; "curl_spherical"]%string).
Proof. run_solver_example. reflexivity. Qed.


(** On the example, with [Ra = Ro = 0], the entry [W[0,1]] is positive. *)
Lemma solver_example_couples_without_perturbation :
  exists w, mget (returned_matrix (solver_example 0 0 [])) 0 1 = Some w /\
            0 < w.
Proof.
  run_solver_example. eexists. split; [reflexivity|].
  unfold simps_example. simpl.
  replace (5 * PI / 6) with (PI - PI / 6) by lra.
  rewrite sin_PI_x, sin_PI6, sin_PI2.
  assert (Hpi := PI_RGT_0).
  nra.
Qed.

End GeneratorFacts.

(* ================================================================== *)
(** * Further properties of the mode library *)
(* ================================================================== *)

Module ModeFacts.

Import halo_free_decay_modes.

(** ** Arrays and masks *)

Lemma zip_with_length {A B C} (f : A -> B -> C) xs ys :
  length xs = length ys -> length (Numpy.zip_with f xs ys) = length ys.
Proof.
  revert ys. induction xs as [|x xs IH]; intros [|y ys] H;
    simpl in *; try discriminate; [reflexivity|].
  f_equal. apply IH. lia.
Qed.

Lemma is_array_Ar xs : is_array (length xs) (Numpy.Ar xs).
Proof. exists xs. split; reflexivity. Qed.

Lemma is_array_lift1 n f a : is_array n a -> is_array n (Numpy.lift1 f a).
Proof.
  intros (xs & -> & H). exists (map f xs). simpl.
  split; [reflexivity|]. rewrite length_map. exact H.
Qed.

Lemma is_array_lift2 n f a b :
  is_array n a -> is_array n b -> is_array n (Numpy.lift2 f a b).
Proof.
  intros (xs & -> & Hx) (ys & -> & Hy). eexists. split; [reflexivity|].
  rewrite zip_with_length; congruence.
Qed.

Lemma is_array_lift2_l n f c b :
  is_array n b -> is_array n (Numpy.lift2 f (Numpy.Sc c) b).
Proof.
  intros (ys & -> & Hy). eexists. split; [reflexivity|].
  rewrite length_map. exact Hy.
Qed.

Lemma is_array_lift2_r n f a c :
  is_array n a -> is_array n (Numpy.lift2 f a (Numpy.Sc c)).
Proof.
  intros (xs & -> & Hx). eexists. split; [reflexivity|].
  rewrite length_map. exact Hx.
Qed.

(** Proves that an expression over arrays of [n] entries and scalars is an
    array of [n] entries. *)
Ltac array_shape :=
  repeat first
    [ assumption
    | apply is_array_Ar
    | apply is_array_lift1
    | apply is_array_lift2_l
    | apply is_array_lift2_r
    | apply is_array_lift2 ].

Lemma scatter_length xs mask vs :
  length (Numpy.scatter xs mask vs) = length xs.
Proof.
  revert mask vs. induction xs as [|x xs IH]; intros [|[] m] vs;
    simpl; try reflexivity.
  - destruct vs; simpl; f_equal; apply IH.
  - f_equal; apply IH.
Qed.

(** The two masked assignments [Q[r<=1.] = v1; Q[r>1.] = v2] write every
    entry: what [Q] held before is gone. *)
Lemma scatter_both_masks :
  forall r g g' v1 v2,
    length g = length r -> length g' = length r ->
    length v1 = length (Numpy.select r (Numpy.le_mask r 1)) ->
    length v2 = length (Numpy.select r (Numpy.gt_mask r 1)) ->
    Numpy.scatter (Numpy.scatter g (Numpy.le_mask r 1) v1)
                  (Numpy.gt_mask r 1) v2
    = Numpy.scatter (Numpy.scatter g' (Numpy.le_mask r 1) v1)
                    (Numpy.gt_mask r 1) v2.
Proof.
  induction r as [|x r IH]; intros [|a g] [|a' g'] v1 v2 Hg Hg' H1 H2;
    simpl in *; try discriminate; [reflexivity|].
  destruct (Rle_dec x 1) as [Hle|Hnle]; destruct (Rgt_dec x 1) as [Hgt|Hngt];
    try (exfalso; lra); simpl in *.
  - destruct v1 as [|y v1]; [discriminate|]. simpl.
    f_equal. apply IH; simpl in *; lia.
  - destruct v2 as [|y v2]; [discriminate|].
    f_equal. apply IH; simpl in *; lia.
Qed.

Lemma piecewise_forgets (f_int f_ext : Numpy.nd -> Numpy.nd) r g g' :
  elementwise f_int -> elementwise f_ext ->
  length g = length r -> length g' = length r ->
  piecewise (Numpy.Ar g) r f_int f_ext
  = piecewise (Numpy.Ar g') r f_int f_ext /\
  is_array (length r) (piecewise (Numpy.Ar g) r f_int f_ext).
Proof.
  intros Hi He Hg Hg'. unfold piecewise.
  destruct (Hi (Numpy.select r (Numpy.le_mask r 1))) as (v1 & -> & H1).
  destruct (He (Numpy.select r (Numpy.gt_mask r 1))) as (v2 & -> & H2).
  simpl. split.
  - f_equal. apply scatter_both_masks; assumption.
  - eexists. split; [reflexivity|]. rewrite !scatter_length. exact Hg.
Qed.

(** ** Every interior and exterior formula works entry by entry *)

Ltac piece_elementwise :=
  intro xs;
  unfold a_1_Q_int, a_1_Q_ext, a_1_X_int, a_1_X_ext,
    a_2_Q_int, a_2_Q_ext, a_2_X_int, a_2_X_ext, a_3_Q_int, a_3_Q_ext,
    s_1_Q_int, s_1_Q_ext, s_1_X_int, s_1_X_ext, s_2_Q_int, s_2_Q_ext,
    s_3_Q_int, s_3_Q_ext, s_3_X_int, s_3_X_ext, s_4_Q_int, s_4_Q_ext,
    jv, sin, cos, sqrt, Numpy.sin, Numpy.cos, Numpy.sqrt;
  cbv zeta; array_shape.

Lemma a_1_Q_int_elementwise (J : R -> R -> R) (k : R) : elementwise (a_1_Q_int J k).
Proof. piece_elementwise. Qed.

Lemma a_1_Q_ext_elementwise (J : R -> R -> R) (k : R) : elementwise (a_1_Q_ext J k).
Proof. piece_elementwise. Qed.

Lemma a_1_X_int_elementwise (k : R) : elementwise (a_1_X_int k).
Proof. piece_elementwise. Qed.

Lemma a_1_X_ext_elementwise (J : R -> R -> R) (k : R) : elementwise (a_1_X_ext J k).
Proof. piece_elementwise. Qed.

Lemma a_2_Q_int_elementwise (J : R -> R -> R) (k : R) : elementwise (a_2_Q_int J k).
Proof. piece_elementwise. Qed.

Lemma a_2_Q_ext_elementwise (J : R -> R -> R) (k : R) : elementwise (a_2_Q_ext J k).
Proof. piece_elementwise. Qed.

Lemma a_2_X_int_elementwise (k : R) : elementwise (a_2_X_int k).
Proof. piece_elementwise. Qed.

Lemma a_2_X_ext_elementwise (J : R -> R -> R) (k : R) : elementwise (a_2_X_ext J k).
Proof. piece_elementwise. Qed.

Lemma a_3_Q_int_elementwise (J : R -> R -> R) (k : R) : elementwise (a_3_Q_int J k).
Proof. piece_elementwise. Qed.

Lemma a_3_Q_ext_elementwise (J : R -> R -> R) (k : R) : elementwise (a_3_Q_ext J k).
Proof. piece_elementwise. Qed.

Lemma s_1_Q_int_elementwise (J : R -> R -> R) (k : R) : elementwise (s_1_Q_int J k).
Proof. piece_elementwise. Qed.

Lemma s_1_Q_ext_elementwise (J : R -> R -> R) (k : R) : elementwise (s_1_Q_ext J k).
Proof. piece_elementwise. Qed.

Lemma s_1_X_int_elementwise (k : R) : elementwise (s_1_X_int k).
Proof. piece_elementwise. Qed.

Lemma s_1_X_ext_elementwise (J : R -> R -> R) (k : R) : elementwise (s_1_X_ext J k).
Proof. piece_elementwise. Qed.

Lemma s_2_Q_int_elementwise (J : R -> R -> R) (k : R) : elementwise (s_2_Q_int J k).
Proof. piece_elementwise. Qed.

Lemma s_2_Q_ext_elementwise (J : R -> R -> R) (k : R) : elementwise (s_2_Q_ext J k).
Proof. piece_elementwise. Qed.

Lemma s_3_Q_int_elementwise (J : R -> R -> R) (k : R) : elementwise (s_3_Q_int J k).
Proof. piece_elementwise. Qed.

Lemma s_3_Q_ext_elementwise (J : R -> R -> R) (k : R) : elementwise (s_3_Q_ext J k).
Proof. piece_elementwise. Qed.

Lemma s_3_X_int_elementwise (k : R) : elementwise (s_3_X_int k).
Proof. piece_elementwise. Qed.

Lemma s_3_X_ext_elementwise (J : R -> R -> R) (k : R) : elementwise (s_3_X_ext J k).
Proof. piece_elementwise. Qed.

Lemma s_4_Q_int_elementwise (J : R -> R -> R) (k : R) : elementwise (s_4_Q_int J k).
Proof. piece_elementwise. Qed.

Lemma s_4_Q_ext_elementwise (J : R -> R -> R) (k : R) : elementwise (s_4_Q_ext J k).
Proof. piece_elementwise. Qed.

(** ** What the modes return *)

Lemma empty_like_length (garbage : nat -> R) (r : list R) :
  length (map garbage (seq 0 (length r))) = length r.
Proof. rewrite length_map, length_seq. reflexivity. Qed.

Lemma piecewise_empty_like (f_int f_ext : Numpy.nd -> Numpy.nd)
      (garbage garbage' : nat -> R) r :
  elementwise f_int -> elementwise f_ext ->
  piecewise (Numpy.empty_like garbage r) r f_int f_ext
  = piecewise (Numpy.empty_like garbage' r) r f_int f_ext.
Proof.
  intros Hi He. unfold Numpy.empty_like.
  apply piecewise_forgets; auto using empty_like_length.
Qed.

Lemma piecewise_empty_like_array (f_int f_ext : Numpy.nd -> Numpy.nd)
      (garbage : nat -> R) r :
  elementwise f_int -> elementwise f_ext ->
  is_array (length r) (piecewise (Numpy.empty_like garbage r) r f_int f_ext).
Proof.
  intros Hi He. unfold Numpy.empty_like.
  apply (piecewise_forgets f_int f_ext r _ (map garbage (seq 0 (length r))));
    auto using empty_like_length.
Qed.

Lemma zeros_like_array (r : list R) : is_array (length r) (Numpy.zeros_like r).
Proof. eexists. split; [reflexivity|]. apply length_map. Qed.

Lemma piecewise_zeros_like_array (f_int f_ext : Numpy.nd -> Numpy.nd) r :
  elementwise f_int -> elementwise f_ext ->
  is_array (length r) (piecewise (Numpy.zeros_like r) r f_int f_ext).
Proof.
  intros Hi He. unfold Numpy.zeros_like.
  apply (piecewise_forgets f_int f_ext r _ (map (fun _ => 0) r));
    auto using length_map.
Qed.

Create HintDb modes.

#[local] Hint Resolve a_1_Q_int_elementwise a_1_Q_ext_elementwise
  a_1_X_int_elementwise a_1_X_ext_elementwise
  a_2_Q_int_elementwise a_2_Q_ext_elementwise
  a_2_X_int_elementwise a_2_X_ext_elementwise
  a_3_Q_int_elementwise a_3_Q_ext_elementwise
  s_1_Q_int_elementwise s_1_Q_ext_elementwise
  s_1_X_int_elementwise s_1_X_ext_elementwise
  s_2_Q_int_elementwise s_2_Q_ext_elementwise
  s_3_Q_int_elementwise s_3_Q_ext_elementwise
  s_3_X_int_elementwise s_3_X_ext_elementwise
  s_4_Q_int_elementwise s_4_Q_ext_elementwise : modes.

Ltac unfold_modes :=
  unfold get_B_a_4; unfold get_B_a_1, get_B_a_2, get_B_a_3,
    get_B_s_1, get_B_s_2, get_B_s_3, get_B_s_4; cbv zeta.

(** X1.  On a grid whose radii are numbers, no mode lets uninitialised
    memory through: the comparisons [r <= 1.] and [r > 1.] are then the two
    complementary masks of the model, the two masked assignments overwrite
    every entry of the arrays that [N.empty_like] allocates, and what a
    mode returns is the same whatever the memory held.  A radius that is
    NaN is outside this: both comparisons are False there, both
    assignments pass the entry by, and it keeps what the memory held. *)
Theorem modes_overwrite_uninitialised_memory
        (J : R -> R -> R) (garbage garbage' : nat -> R)
        (r theta phi : list R) (C k : option R) :
  (sample_le_mask (map Number r) 1 = Numpy.le_mask r 1 /\
   sample_gt_mask (map Number r) 1 = Numpy.gt_mask r 1) /\
  Forall (fun get_B =>
            get_B J garbage r theta phi C k = get_B J garbage' r theta phi C k)
         mode_functions /\
  (forall held : R,
     Numpy.put (Numpy.put (Numpy.Ar [held]) (sample_le_mask [NaN] 1)
                          (Numpy.Ar []))
               (sample_gt_mask [NaN] 1) (Numpy.Ar [])
     = Numpy.Ar [held]).
Proof.
  split; [|split].
  - unfold sample_le_mask, sample_gt_mask, Numpy.le_mask, Numpy.gt_mask.
    rewrite !map_map. split; reflexivity.
  - unfold mode_functions.
    repeat (apply Forall_cons || apply Forall_nil);
      unfold_modes;
      rewrite ?(piecewise_empty_like _ _ garbage garbage')
        by auto with modes;
      reflexivity.
  - intro held. reflexivity.
Qed.


(** ** The profiles at the unit sphere and outside it *)

Ltac unfold_profiles :=
  unfold a_1_Q_int, a_1_Q_ext, a_1_X_int, a_1_X_ext,
    a_2_Q_int, a_2_Q_ext, a_2_X_int, a_2_X_ext, a_3_Q_int, a_3_Q_ext,
    s_1_Q_int, s_1_Q_ext, s_1_X_int, s_1_X_ext, s_2_Q_int, s_2_Q_ext,
    s_3_Q_int, s_3_Q_ext, s_3_X_int, s_3_X_ext, s_4_Q_int, s_4_Q_ext,
    jv, sin, cos, sqrt, Numpy.sin, Numpy.cos, Numpy.sqrt, pi;
  cbv zeta.

(** X3.  Every radial profile is continuous at the unit sphere: at
    [r = 1] the interior formula of [Q] (the one the code uses there) and
    its exterior formula give the same value, for each of the modes,
    whatever [k] and the Bessel function are. *)
Theorem radial_profiles_meet_at_unit_sphere (J : R -> R -> R) (k : R) :
  Forall (fun Q => fst Q k (Numpy.Ar [1]) = snd Q k (Numpy.Ar [1]))
         (radial_profiles J).
Proof.
  unfold radial_profiles.
  repeat (apply Forall_cons || apply Forall_nil);
    unfold fst, snd; unfold_profiles; simpl; unfold Numpy.power;
    rewrite !Rpower_base_1, ?Rmult_1_r; reflexivity.
Qed.

Lemma sqrt_2_over_PI_y (y : R) :
  0 < y ->
  R_sqrt.sqrt (2 / (PI * y)) = R_sqrt.sqrt (2 / PI) / R_sqrt.sqrt y.
Proof.
  intro Hy. pose proof PI_RGT_0 as Hpi.
  replace (2 / (PI * y)) with ((2 / PI) / y) by (field; lra).
  apply sqrt_div_alt. exact Hy.
Qed.

Lemma Rpower_minus_half (k : R) : 0 < k -> Rpower k (-0.5) = / R_sqrt.sqrt k.
Proof.
  intro Hk. replace (-0.5) with (- / 2) by lra.
  rewrite Rpower_Ropp, Rpower_sqrt by assumption. reflexivity.
Qed.

Lemma jump_vanishes_with_sine (u v s q : R) :
  0 < q -> u - v = s * q -> u - v = s * q /\ (u = v <-> s = 0).
Proof.
  intros Hq H. split; [exact H|]. split; intro E.
  - assert (Hz : s * q = 0) by lra.
    apply Rmult_integral in Hz. destruct Hz; [assumption | lra].
  - rewrite E in H. lra.
Qed.

(** X4.  At [r = 1] the interior and the exterior formula of the polar
    profile [X] of [get_B_a_1] differ by [sin(k) sqrt(2k/pi)], when [jv] is
    the Bessel function of order 3/2 at [k > 0].  So the polar component is
    continuous across the unit sphere exactly when [sin k = 0]: it is for
    the default [k = pi], and for the [k = 2 pi] of [get_B_a_4]. *)
Theorem get_B_a_1_polar_jump_at_unit_sphere (J : R -> R -> R) (k : R) :
  0 < k ->
  J (3.0/2.0) k = J_three_halves k ->
  exists x_int x_ext,
    a_1_X_int k (Numpy.Ar [1]) = Numpy.Ar [x_int] /\
    a_1_X_ext J k (Numpy.Ar [1]) = Numpy.Ar [x_ext] /\
    x_int - x_ext = Rtrigo_def.sin k * R_sqrt.sqrt (2 * k / PI) /\
    (x_int = x_ext <-> Rtrigo_def.sin k = 0).
Proof.
  intros Hk HJ. eexists. eexists. split; [|split].
  - unfold_profiles. simpl. reflexivity.
  - unfold_profiles. simpl. reflexivity.
  - apply jump_vanishes_with_sine.
    { apply sqrt_lt_R0. apply Rdiv_lt_0_compat; [lra | apply PI_RGT_0]. }
    unfold Numpy.power. rewrite HJ. unfold J_three_halves.
    rewrite Rpower_base_1, Rmult_1_r, Rpower_minus_half by assumption.
    rewrite sqrt_2_over_PI_y by assumption.
    replace (2 * k / PI) with (2 / PI * k) by (field; pose proof PI_RGT_0; lra).
    rewrite sqrt_mult_alt
      by (apply Rlt_le, Rdiv_lt_0_compat; [lra | apply PI_RGT_0]).
    replace 2.0 with 2 by lra.
    pose proof (sqrt_lt_R0 k Hk) as Hb.
    pose proof (sqrt_sqrt k (Rlt_le _ _ Hk)) as Hbb.
    set (b := R_sqrt.sqrt k) in *. set (a := R_sqrt.sqrt (2 / PI)).
    clearbody b a. subst k.
    field. lra.
Qed.

Lemma get_B_a_1_polar_jump_at_unit_sphere_witness :
  exists x_int x_ext,
    a_1_X_int PI (Numpy.Ar [1]) = Numpy.Ar [x_int] /\
    a_1_X_ext (fun _ => J_three_halves) PI (Numpy.Ar [1])
    = Numpy.Ar [x_ext] /\
    x_int - x_ext = Rtrigo_def.sin PI * R_sqrt.sqrt (2 * PI / PI) /\
    (x_int = x_ext <-> Rtrigo_def.sin PI = 0).
Proof.
  apply (get_B_a_1_polar_jump_at_unit_sphere (fun _ => J_three_halves) PI).
  - apply PI_RGT_0.
  - reflexivity.
Defined.

(** ** The amplitude *)













(** ** Mirroring in the equatorial plane *)














(** ** The polar profile as a derivative *)

Lemma profile_at_outside (garbage : nat -> R)
      (f_int f_ext : Numpy.nd -> Numpy.nd) (z : R) :
  elementwise f_int -> elementwise f_ext -> 1 < z ->
  profile_at garbage f_int f_ext z = entry (f_ext (Numpy.Ar [z])).
Proof.
  intros Hi He Hz. unfold profile_at, piecewise. simpl.
  destruct (Rle_dec z 1) as [Hle|_]; [exfalso; lra|].
  destruct (Rgt_dec z 1) as [_|Hn]; [|exfalso; lra].
  destruct (Hi []) as (v1 & -> & H1). destruct (He [z]) as (v2 & -> & H2).
  destruct v2 as [|v v2]; [discriminate|]. reflexivity.
Qed.

Lemma profile_at_inside (garbage : nat -> R)
      (f_int f_ext : Numpy.nd -> Numpy.nd) (z : R) :
  elementwise f_int -> elementwise f_ext -> z <= 1 ->
  profile_at garbage f_int f_ext z = entry (f_int (Numpy.Ar [z])).
Proof.
  intros Hi He Hz. unfold profile_at, piecewise. simpl.
  destruct (Rle_dec z 1) as [_|Hn]; [|exfalso; lra].
  destruct (Rgt_dec z 1) as [Hgt|_]; [exfalso; lra|].
  destruct (Hi [z]) as (v1 & -> & H1). destruct (He []) as (v2 & -> & H2).
  destruct v1 as [|v v1]; [discriminate|].
  destruct v2; reflexivity.
Qed.

Lemma Rpower_pred (x e : R) : 0 < x -> x * Rpower x (e - 1) = Rpower x e.
Proof.
  intro Hx. unfold Rminus. rewrite Rpower_plus, Rpower_Ropp, Rpower_1
    by assumption. field. lra.
Qed.

Lemma derivable_pt_lim_exterior (e j x : R) :
  0 < x ->
  derivable_pt_lim (fun z => z * (Rpower z e * j)) x
                   ((1 + e) * Rpower x e * j).
Proof.
  intro Hx.
  replace ((1 + e) * Rpower x e * j)
    with (1 * (Rpower x e * j) + x * (e * Rpower x (e - 1) * j))
    by (rewrite <- (Rpower_pred x e Hx); ring).
  apply (derivable_pt_lim_mult id (fun z => Rpower z e * j)).
  - apply derivable_pt_lim_id.
  - apply derivable_pt_lim_scal_right, derivable_pt_lim_power, Hx.
Qed.

Lemma derivable_pt_lim_ext_value (f : R -> R) (x l l' : R) :
  derivable_pt_lim f x l -> l = l' -> derivable_pt_lim f x l'.
Proof. intros H <-. exact H. Qed.

(** X7.  Outside the unit sphere the polar profile is what its comment
    says, [X = d(r Q)/dr]: for each of the four poloidal modes with a
    profile [X], at every radius [x > 1], the function [r -> r Q(r)] that
    the code computes has the derivative [X(x)] that the code computes. *)
Theorem exterior_polar_profile_is_the_derivative
        (J : R -> R -> R) (garbage : nat -> R) (k x : R) :
  1 < x ->
  Forall (fun QX =>
            derivable_pt_lim
              (fun z => z * profile_at garbage (fst (fst QX) k)
                                       (snd (fst QX) k) z)
              x
              (profile_at garbage (fst (snd QX) k) (snd (snd QX) k) x))
         (poloidal_profiles J).
Proof.
  intro Hx. unfold poloidal_profiles.
  repeat (apply Forall_cons || apply Forall_nil); unfold fst, snd;
    rewrite profile_at_outside by auto with modes;
    match goal with
    | |- derivable_pt_lim (fun z => z * profile_at _ _ (?Q k) z) _ _ =>
        apply (derivable_pt_lim_locally_ext
                 (fun z => z * entry (Q k (Numpy.Ar [z]))) _ x 1 (x + 1));
        [ lra
        | intros z Hz; rewrite profile_at_outside by (auto with modes; lra);
          reflexivity
        | ]
    end;
    unfold_profiles; simpl; unfold Numpy.power;
    match goal with
    | |- derivable_pt_lim (fun z => z * (Rpower z ?e * ?j)) _ _ =>
        eapply derivable_pt_lim_ext_value;
        [ apply (derivable_pt_lim_exterior e j x); lra | ]
    end;
    try replace (Rpower x (-4)) with (Rpower x (-4.0)) by (f_equal; lra);
    match goal with
    | |- (1 + ?e) * Rpower x ?e * ?j = _ =>
        generalize (Rpower x e) j; intros P j'; nra
    end.
Qed.

Lemma exterior_polar_profile_is_the_derivative_witness :
  Forall (fun QX =>
            derivable_pt_lim
              (fun z => z * profile_at no_garbage (fst (fst QX) 1)
                                       (snd (fst QX) 1) z)
              2
              (profile_at no_garbage (fst (snd QX) 1) (snd (snd QX) 1) 2))
         (poloidal_profiles J_example).
Proof.
  apply (exterior_polar_profile_is_the_derivative J_example no_garbage 1 2).
  lra.
Defined.

Lemma derivable_pt_lim_a_1_interior (A k x : R) :
  0 < k -> 0 < x ->
  derivable_pt_lim
    (fun z => A * (Rtrigo_def.sin (k * z) / (k * z) - Rtrigo_def.cos (k * z)))
    x
    (A * k * ((k * x) ^ 2 * Rtrigo_def.sin (k * x) - Rtrigo_def.sin (k * x)
              + k * x * Rtrigo_def.cos (k * x)) / (k * x) ^ 2).
Proof.
  intros Hk Hx.
  assert (Hkx : k * x <> 0) by nra.
  assert (Hl : derivable_pt_lim (mult_real_fct k id) x (k * 1))
    by apply derivable_pt_lim_scal, derivable_pt_lim_id.
  assert (Hs : derivable_pt_lim (comp Rtrigo_def.sin (mult_real_fct k id)) x
                 (Rtrigo_def.cos (k * x) * (k * 1)))
    by (apply derivable_pt_lim_comp; [exact Hl | apply derivable_pt_lim_sin]).
  assert (Hc : derivable_pt_lim (comp Rtrigo_def.cos (mult_real_fct k id)) x
                 (- Rtrigo_def.sin (k * x) * (k * 1)))
    by (apply derivable_pt_lim_comp; [exact Hl | apply derivable_pt_lim_cos]).
  pose proof (derivable_pt_lim_div _ _ x _ _ Hs Hl) as Hd.
  specialize (Hd Hkx).
  pose proof (derivable_pt_lim_scal _ A x _
                (derivable_pt_lim_minus _ _ x _ _ Hd Hc)) as H.
  eapply derivable_pt_lim_ext_value; [exact H|].
  unfold comp, mult_real_fct, id, Rsqr. field. lra.
Qed.

(** X8.  For [get_B_a_1] (and so for [get_B_a_4]) the polar profile is
    the derivative [d(r Q)/dr] inside the unit sphere as well: at every
    radius [x > 0] other than 1, when [jv] of order 3/2 is the Bessel
    function [J_{3/2}] on the positive reals and [k > 0]. *)
Theorem get_B_a_1_polar_profile_is_the_derivative
        (J : R -> R -> R) (garbage : nat -> R) (k x : R) :
  0 < k ->
  (forall y, 0 < y -> J (3.0/2.0) y = J_three_halves y) ->
  0 < x -> x <> 1 ->
  derivable_pt_lim
    (fun z => z * profile_at garbage (a_1_Q_int J k) (a_1_Q_ext J k) z)
    x
    (profile_at garbage (a_1_X_int k) (a_1_X_ext J k) x).
Proof.
  intros Hk HJ Hx Hx1.
  destruct (Rlt_dec 1 x) as [Hout|Hin].
  - rewrite profile_at_outside by auto with modes.
    apply (derivable_pt_lim_locally_ext
             (fun z => z * (Rpower z (-2.0) * J (3.0/2.0) k)) _ x 1 (x + 1)).
    + lra.
    + intros z Hz. rewrite profile_at_outside by (auto with modes; lra).
      reflexivity.
    + eapply derivable_pt_lim_ext_value;
        [apply derivable_pt_lim_exterior; lra|].
      unfold_profiles. simpl. unfold Numpy.power.
      generalize (Rpower x (-2.0)) (J (3.0/2.0) k). intros P j. nra.
  - assert (Hlt : x < 1) by lra. clear Hin Hx1.
    pose proof (sqrt_lt_R0 k Hk) as Hb.
    pose proof (sqrt_sqrt k (Rlt_le _ _ Hk)) as Hbb.
    rewrite profile_at_inside by (auto with modes; lra).
    apply (derivable_pt_lim_locally_ext
             (fun z => R_sqrt.sqrt (2 / PI) / R_sqrt.sqrt k
                       * (Rtrigo_def.sin (k * z) / (k * z)
                          - Rtrigo_def.cos (k * z)))
             _ x (x / 2) 1).
    + lra.
    + intros z Hz. rewrite profile_at_inside by (auto with modes; lra).
      unfold_profiles. simpl. unfold Numpy.power.
      assert (Hz0 : 0 < z) by lra.
      assert (Hkz : 0 < k * z) by nra.
      rewrite HJ by assumption. unfold J_three_halves.
      rewrite Rpower_minus_half, sqrt_2_over_PI_y by assumption.
      rewrite sqrt_mult_alt by lra.
      pose proof (sqrt_lt_R0 z Hz0) as Hc.
      pose proof (sqrt_sqrt z (Rlt_le _ _ Hz0)) as Hcc.
      generalize (Rtrigo_def.sin (k * z)) (Rtrigo_def.cos (k * z)).
      intros s c.
      set (b := R_sqrt.sqrt k) in *. set (d := R_sqrt.sqrt z) in *.
      set (a := R_sqrt.sqrt (2 / PI)).
      clearbody b d a. subst z. field. lra.
    + eapply derivable_pt_lim_ext_value;
        [apply derivable_pt_lim_a_1_interior; assumption|].
      unfold_profiles. simpl. unfold Numpy.power.
      rewrite Rpower_minus_half by assumption.
      replace 2.0 with 2 by lra.
      generalize (Rtrigo_def.sin (k * x)) (Rtrigo_def.cos (k * x)).
      intros s c.
      set (b := R_sqrt.sqrt k) in *. set (a := R_sqrt.sqrt (2 / PI)).
      clearbody b a. subst k. field. nra.
Qed.

Lemma get_B_a_1_polar_profile_is_the_derivative_witness :
  derivable_pt_lim
    (fun z => z * profile_at no_garbage (a_1_Q_int (fun _ => J_three_halves) 1)
                             (a_1_Q_ext (fun _ => J_three_halves) 1) z)
    (1 / 2)
    (profile_at no_garbage (a_1_X_int 1)
                (a_1_X_ext (fun _ => J_three_halves) 1) (1 / 2)).
Proof.
  apply (get_B_a_1_polar_profile_is_the_derivative
           (fun _ => J_three_halves) no_garbage 1 (1 / 2)).
  - lra.
  - intros y Hy. reflexivity.
  - lra.
  - lra.
Defined.

(** ** Point by point *)







End ModeFacts.

(* ================================================================== *)
(** * The generator as the file is written *)
(* ================================================================== *)

Module AsWrittenFacts.

Import Field B_generator_halo GeneratorFacts.

(** ** Compiling the file *)

Lemma only_the_solver_has_an_invalid_signature :
  map (fun item => valid_signature (signature (snd item))) class_body
  = [true; true; true; true; false; true].
Proof. reflexivity. Qed.

Lemma compile_class_fails :
  compile_class
  = Py.Raises
      (Py.SyntaxError "non-default argument follows default argument").
Proof. reflexivity. Qed.

Lemma as_written_fails {A} (body : Py.M A) t :
  as_written body t
  = (Py.Raises
       (Py.SyntaxError "non-default argument follows default argument"), t).
Proof. reflexivity. Qed.

(** ** The free names *)

Section Scopes.

Variable curl_spherical : arr3 -> arr3 -> arr3 -> arr3 -> arr3 -> arr3 -> vec3.
Variable cross : arr3 -> arr3 -> arr3 -> arr3 -> arr3 -> arr3 -> vec3.
Variable symmetry_t : Type.
Variable get_mode : arr3 -> arr3 -> arr3 -> nat -> symmetry_t -> vec3.
Variable simps : arr1 -> R -> R.
Variables eigenvalues eigenvectors : Type.
Variable eig : list (list R) -> eigenvalues * eigenvectors.
Variable a : arr3.
Variable nmodes : nat.
Variable symmetry : symmetry_t.
Variables Ra Ro : R.
Variables dphi dtheta dr : R.
Variable gamma : list R.
Variable WBmode : list (list arr3).

(** In the scope of the file the operator stops at its first statement,
    whatever it is given. *)
Lemma operator_in_module_scope r theta phi Br Bt Bp Vr Vt Vp alpha Ra' Ro'
      dynamo_type t :
  perturbation_operator_in curl_spherical cross a module_binds
                           r theta phi Br Bt Bp Vr Vt Vp alpha Ra' Ro'
                           dynamo_type t
  = (Py.Raises (Py.NameError "curl_spherical"), t).
Proof. reflexivity. Qed.

(** With every name bound the body with its reads is the body. *)
Lemma operator_with_every_name r theta phi Br Bt Bp Vr Vt Vp alpha Ra' Ro'
      dynamo_type t :
  perturbation_operator_in curl_spherical cross a every_name
                           r theta phi Br Bt Bp Vr Vt Vp alpha Ra' Ro'
                           dynamo_type t
  = perturbation_operator curl_spherical cross a
                          r theta phi Br Bt Bp Vr Vt Vp alpha Ra' Ro'
                          dynamo_type t.
Proof. reflexivity. Qed.

(** In the scope of the file the solver stops at line 154, whatever it is
    given. *)
Lemma solver_in_module_scope galerkin_grid symmetric dynamo_type
      n_free_decay_modes return_matrix function_V function_alpha t :
  Galerkin_expansion_coefficients_in
    curl_spherical cross symmetry_t get_mode simps eigenvalues eigenvectors
    eig a nmodes symmetry Ra Ro dphi dtheta dr gamma WBmode module_binds
    galerkin_grid symmetric dynamo_type n_free_decay_modes return_matrix
    function_V function_alpha t
  = (Py.Raises (Py.NameError "nmodes"), t).
Proof. reflexivity. Qed.

Lemma for_each_ext {A S} (xs : list A) (body body' : A -> S -> Py.M S) :
  (forall x s t, body x s t = body' x s t) ->
  forall s t, Py.for_each xs body s t = Py.for_each xs body' s t.
Proof.
  intro H. induction xs as [|x xs IH]; intros s t; simpl; [reflexivity|].
  unfold Py.bind. rewrite H. destruct (body' x s t) as [[v|e] t1];
    [apply IH | reflexivity].
Qed.

Lemma row_loop_with_every_name galerkin_grid Bmodes sintheta i js W t :
  row_loop_in simps dphi dtheta dr WBmode every_name galerkin_grid Bmodes
              sintheta i js W t
  = row_loop simps dphi dtheta dr WBmode galerkin_grid Bmodes sintheta
             i js W t.
Proof.
  unfold row_loop_in, row_loop. apply for_each_ext. intros j W' t'.
  destruct (Nat.eqb i j); [reflexivity|].
  unfold coupling_integral, coupling_integrand_in, integrate_phi_in,
    integrate_phi, Py.bind. simpl.
  destruct (coupling_integrand WBmode galerkin_grid Bmodes sintheta i j t')
    as [[x|e] t1] eqn:E; unfold coupling_integrand, Py.bind in E; simpl in E;
    rewrite E; [|reflexivity].
  destruct (Req_dec_T dphi 0); simpl.
  - destruct (first_along_last_axis x); simpl; [|reflexivity].
    unfold matrix_add. destruct (mget W' i j); reflexivity.
  - unfold matrix_add. destruct (mget W' i j); reflexivity.
Qed.

Lemma solver_with_every_name galerkin_grid symmetric dynamo_type
      n_free_decay_modes return_matrix function_V function_alpha t :
  Galerkin_expansion_coefficients_in
    curl_spherical cross symmetry_t get_mode simps eigenvalues eigenvectors
    eig a nmodes symmetry Ra Ro dphi dtheta dr gamma WBmode every_name
    galerkin_grid symmetric dynamo_type n_free_decay_modes return_matrix
    function_V function_alpha t
  = Galerkin_expansion_coefficients
      curl_spherical cross symmetry_t get_mode simps eigenvalues
      eigenvectors eig a nmodes symmetry Ra Ro dphi dtheta dr gamma WBmode
      galerkin_grid symmetric dynamo_type n_free_decay_modes return_matrix
      function_V function_alpha t.
Proof.
  unfold Galerkin_expansion_coefficients_in, Galerkin_expansion_coefficients.
  cbv zeta.
  change (WBmodes_on_in curl_spherical cross a Ra Ro every_name)
    with (WBmodes_on curl_spherical cross a Ra Ro).
  change (diagonal_loop_in gamma every_name) with (diagonal_loop gamma).
  unfold coupling_loop_in, coupling_loop.
  unfold Py.bind.
  cbv [global globals every_name Py.ret Py.bind].
  destruct (1 <=? nmodes)%nat;
    (match goal with
     | |- context [WBmodes_on ?c ?x ?a' ?p ?q ?g ?d ?B ?V ?al t] =>
         destruct (WBmodes_on c x a' p q g d B V al t) as [[WB|e] t1]
     end; [|reflexivity];
     rewrite (for_each_ext _ _ _
                (fun i W t => row_loop_with_every_name _ _ _ i _ W t));
     reflexivity).
Qed.

End Scopes.

(** The solver on the example of three modes. *)
Lemma solver_example_wide_returns :
  solver_example_wide []
  = (Py.Returns ([], returned_matrix (solver_example_wide []),
                 Some (returned_matrix (solver_example_wide []))),
     ["curl_spherical"; "cross"; "curl_spherical";
      "curl_spherical"; "cross"; "curl_spherical";
      "curl_spherical"; "cross"; "curl_spherical"]%string)
  /\ mget (returned_matrix (solver_example_wide [])) 2 2 = Some 0.
Proof.
  unfold returned_matrix, solver_example_wide.
  rewrite solver_with_every_name.
  unfold Galerkin_expansion_coefficients,
    WBmodes_on, Bmodes_on, coupling_loop, row_loop, diagonal_loop,
    coupling_integral, coupling_integrand, integrate_phi.
  simpl.
  unfold Py.bind, Py.call, Py.ret. simpl.
  destruct (Req_dec_T 0 0) as [_|n]; [|exfalso; apply n; reflexivity].
  simpl.
  unfold matrix_add, matrix_set, mget, mset. simpl.
  split; reflexivity.
Qed.

(** C8.  The operator does not signal an unsupported tag before its
    numerical work.  As the file is written it signals no tag at all: the
    file does not compile, and the body stops at its first statement
    (line 96) with the NameError of [curl_spherical], for every tag, valid
    or not.  With every name bound the tag is only examined inside the
    loop of line 104: on arrays of one shape, for the tag 'alpha', the
    AssertionError comes after the two curls and the cross product have
    been computed. *)
Theorem perturbation_operator_does_not_signal_the_tag_first
        (curl_spherical cross :
           arr3 -> arr3 -> arr3 -> arr3 -> arr3 -> arr3 -> vec3)
        (a r theta phi Br Bt Bp Vr Vt Vp alpha : arr3) (Ra' Ro' : R)
        (dynamo_type : string) (t : Py.calls) :
  as_written
    (perturbation_operator_in curl_spherical cross a module_binds
                              r theta phi Br Bt Bp Vr Vt Vp alpha Ra' Ro'
                              dynamo_type) t
  = (Py.Raises
       (Py.SyntaxError "non-default argument follows default argument"), t)
  /\
  perturbation_operator_in curl_spherical cross a module_binds
                           r theta phi Br Bt Bp Vr Vt Vp alpha Ra' Ro'
                           dynamo_type t
  = (Py.Raises (Py.NameError "curl_spherical"), t)
  /\
  perturbation_operator_in curl_example cross_example (field_example 2 2 2)
    every_name
    (field_example (1/2) 1 (3/2)) theta_example (field_example 0 0 0)
    (field_example 1 2 3) (field_example 4 5 6) (field_example 7 8 9)
    (field_example 0 0 0) (field_example 0 0 0) (field_example 1 1 1)
    (field_example 3 3 3) 2 5 "alpha" t
  = (Py.Raises (Py.AssertionError "Invalid option: dynamo_type=alpha"),
     t ++ ["curl_spherical"; "cross"; "curl_spherical"]%string).
Proof.
  split; [apply as_written_fails|]. split; [apply operator_in_module_scope|].
  rewrite operator_with_every_name.
  apply operator_other_tag; discriminate.
Qed.

(** C2.  The solver returns no matrix whose diagonal is [gamma].  As the
    file is written it returns nothing: the [def] of line 117 does not
    compile, and its body stops at line 154 with the NameError of
    [nmodes], whatever it is given.  With every name bound the diagonal
    loop of lines 226-227 only runs over [range(n_free_decay_modes)] of
    the [nmodes] mode indices: with three modes, of which two are free
    decay modes, the returned [W[2,2]] is 0 and not [gamma[2] = -3]. *)
Theorem Galerkin_diagonal_is_not_gamma
        (curl_spherical cross :
           arr3 -> arr3 -> arr3 -> arr3 -> arr3 -> arr3 -> vec3)
        (symmetry_t : Type)
        (get_mode : arr3 -> arr3 -> arr3 -> nat -> symmetry_t -> vec3)
        (simps : arr1 -> R -> R) (eigenvalues eigenvectors : Type)
        (eig : list (list R) -> eigenvalues * eigenvectors)
        (a : arr3) (nmodes : nat) (symmetry : symmetry_t)
        (Ra Ro dphi dtheta dr : R) (gamma : list R)
        (WBmode : list (list arr3))
        (galerkin_grid : Grid) (symmetric : bool) (dynamo_type : string)
        (n_free_decay_modes : nat) (return_matrix : bool)
        (function_V : arr3 -> arr3 -> arr3 -> vec3)
        (function_alpha : arr3 -> arr3 -> arr3 -> arr3) (t : Py.calls) :
  as_written
    (Galerkin_expansion_coefficients_in
       curl_spherical cross symmetry_t get_mode simps eigenvalues
       eigenvectors eig a nmodes symmetry Ra Ro dphi dtheta dr gamma WBmode
       module_binds
       galerkin_grid symmetric dynamo_type n_free_decay_modes return_matrix
       function_V function_alpha) t
  = (Py.Raises
       (Py.SyntaxError "non-default argument follows default argument"), t)
  /\
  Galerkin_expansion_coefficients_in
    curl_spherical cross symmetry_t get_mode simps eigenvalues eigenvectors
    eig a nmodes symmetry Ra Ro dphi dtheta dr gamma WBmode module_binds
    galerkin_grid symmetric dynamo_type n_free_decay_modes return_matrix
    function_V function_alpha t
  = (Py.Raises (Py.NameError "nmodes"), t)
  /\
  (exists val vec W,
     fst (solver_example_wide []) = Py.Returns (val, vec, Some W) /\
     mget W 2 2 = Some 0 /\
     nth_error [-1; -2; -3] 2 = Some (-3)).
Proof.
  split; [apply as_written_fails|]. split; [apply solver_in_module_scope|].
  destruct solver_example_wide_returns as [Hret Hdiag].
  exists [], (returned_matrix (solver_example_wide [])),
    (returned_matrix (solver_example_wide [])).
  split; [rewrite Hret; reflexivity|]. split; [exact Hdiag | reflexivity].
Qed.

(** C7.  The phi stage of the solver does not look at the phi axis of the
    grid.  As the file is written the stage is never reached (the file
    does not compile, and the body stops at line 154).  With every name
    bound the stage branches on the free name [dphi], which no statement
    derives from the grid: with [dphi = 0] an integrand with three
    azimuths is cut to its first sample times [2*pi], and with [dphi = 1]
    an integrand with a single azimuth, a phi axis of zero width, is
    handed to Simpson's rule. *)
Theorem Galerkin_phi_stage_ignores_the_grid
        (curl_spherical cross :
           arr3 -> arr3 -> arr3 -> arr3 -> arr3 -> arr3 -> vec3)
        (symmetry_t : Type)
        (get_mode : arr3 -> arr3 -> arr3 -> nat -> symmetry_t -> vec3)
        (simps : arr1 -> R -> R) (eigenvalues eigenvectors : Type)
        (eig : list (list R) -> eigenvalues * eigenvectors)
        (a : arr3) (nmodes : nat) (symmetry : symmetry_t)
        (Ra Ro dphi dtheta dr : R) (gamma : list R)
        (WBmode : list (list arr3))
        (galerkin_grid : Grid) (symmetric : bool) (dynamo_type : string)
        (n_free_decay_modes : nat) (return_matrix : bool)
        (function_V : arr3 -> arr3 -> arr3 -> vec3)
        (function_alpha : arr3 -> arr3 -> arr3 -> arr3) (t : Py.calls) :
  as_written
    (Galerkin_expansion_coefficients_in
       curl_spherical cross symmetry_t get_mode simps eigenvalues
       eigenvectors eig a nmodes symmetry Ra Ro dphi dtheta dr gamma WBmode
       module_binds
       galerkin_grid symmetric dynamo_type n_free_decay_modes return_matrix
       function_V function_alpha) t
  = (Py.Raises
       (Py.SyntaxError "non-default argument follows default argument"), t)
  /\
  Galerkin_expansion_coefficients_in
    curl_spherical cross symmetry_t get_mode simps eigenvalues eigenvectors
    eig a nmodes symmetry Ra Ro dphi dtheta dr gamma WBmode module_binds
    galerkin_grid symmetric dynamo_type n_free_decay_modes return_matrix
    function_V function_alpha t
  = (Py.Raises (Py.NameError "nmodes"), t)
  /\
  integrate_phi_in simps 0 every_name three_azimuths t
  = (Py.Returns [[1 * 2.0 * PI]], t)
  /\
  integrate_phi_in simps 1 every_name one_azimuth t
  = (Py.Returns [[simps [7] 1]], t).
Proof.
  split; [apply as_written_fails|]. split; [apply solver_in_module_scope|].
  unfold integrate_phi_in, Py.bind. simpl. split.
  - destruct (Req_dec_T 0 0) as [_|n]; [|exfalso; apply n; reflexivity].
    reflexivity.
  - destruct (Req_dec_T 1 0) as [e|_]; [exfalso; lra|]. reflexivity.
Qed.

End AsWrittenFacts.
